(** * validate_data.py: validator / fixer for the stops JSON

    A shallow embedding of [src/validate_data.py] and the properties of
    its row checks, its fix mode and its exit status.

    Python values are embedded as the inductive [value]; a [str] is the
    list of its code points; a [dict] is a finite map from [str] keys; a
    [float] is an IEEE binary64 number in the executable specification of
    the Standard Library ([SpecFloat]).  [print] and [write_text] are
    recorded in an event trace, exceptions in a [result]. *)

From Stdlib Require Import ZArith NArith List Bool String Ascii Lia.
From Stdlib Require Import Floats.SpecFloat.
From stdpp Require Import gmap list fin_maps.

Set Warnings "-register-all".
Local Open Scope Z_scope.

(** ** Python strings *)

(** A Python [str] is a sequence of Unicode code points. *)
Abbreviation pstr := (list N).

(** A string literal of the source (all of them are ASCII). *)
Definition py (s : string) : pstr :=
  List.map N_of_ascii (list_ascii_of_string s).

Module Str.

(** [s.startswith(pre)] *)
Fixpoint startswith (pre s : pstr) : bool :=
  match pre, s with
  | [], _ => true
  | _ :: _, [] => false
  | a :: pre', b :: s' => N.eqb a b && startswith pre' s'
  end.

(** [sub in s]: [sub] occurs as a contiguous run of [s]. *)
Fixpoint contains (sub s : pstr) : bool :=
  startswith sub s ||
  match s with
  | [] => false
  | _ :: s' => contains sub s'
  end.

(** [s.rfind(c)] for a one-character [c]; [None] stands for [-1]. *)
Fixpoint rfind (c : N) (s : pstr) : option nat :=
  match s with
  | [] => None
  | x :: s' =>
      match rfind c s' with
      | Some j => Some (S j)
      | None => if N.eqb x c then Some O else None
      end
  end.

(** [ch.isspace()]: the code points Python's [str.strip()] removes. *)
Definition isspace (c : N) : bool :=
  ((9 <=? c) && (c <=? 13) || (28 <=? c) && (c <=? 32) ||
   (c =? 133) || (c =? 160) || (c =? 5760) ||
   (8192 <=? c) && (c <=? 8202) ||
   (c =? 8232) || (c =? 8233) || (c =? 8239) || (c =? 8287) ||
   (c =? 12288))%N.

Fixpoint lstrip (s : pstr) : pstr :=
  match s with
  | [] => []
  | c :: s' => if isspace c then lstrip s' else s
  end.

Definition rstrip (s : pstr) : pstr := rev (lstrip (rev s)).

(** [s.strip()] *)
Definition strip (s : pstr) : pstr := lstrip (rstrip s).

End Str.

(** ** Python values, as [json.loads] builds them *)

Inductive value : Type :=
| VNone
| VBool (b : bool)
| VInt (z : Z)
| VFloat (f : spec_float)
| VStr (s : pstr)
| VList (l : list value)
| VDict (d : gmap pstr value).

Abbreviation dict := (gmap pstr value).

(** [d.get(k, default)] *)
Definition dict_get (d : dict) (k : pstr) (dflt : value) : value :=
  match d !! k with
  | Some v => v
  | None => dflt
  end.

(** [k not in d] *)
Definition absent (d : dict) (k : pstr) : bool :=
  match d !! k with
  | Some _ => false
  | None => true
  end.

(** ** Exceptions *)

Inductive exn : Type :=
| TypeError
| ValueError
| OverflowError
| AttributeError
| JSONDecodeError
| UnicodeEncodeError
| OSError.

Inductive result (A : Type) : Type :=
| Ok (a : A)
| Raise (e : exn).
Arguments Ok {A} a.
Arguments Raise {A} e.

(** ** Floats *)

Module Float.

(** binary64 *)
Definition prec : Z := 53.
Definition emax : Z := 1024.

(** [float(n)] for an [int]: the nearest binary64 (ties to even);
    [OverflowError] when [n] is too large to convert. *)
Definition of_int (z : Z) : result spec_float :=
  match binary_normalize prec emax z 0 false with
  | S754_infinity _ => Raise OverflowError
  | f => Ok f
  end.

(** A small [int] literal of the source, which converts exactly. *)
Definition lit (z : Z) : spec_float := binary_normalize prec emax z 0 false.

(** [a <= x <= b] for [int] literals [a], [b] and a float [x]; every
    comparison with a NaN is false. *)
Definition between (a b : Z) (x : spec_float) : bool :=
  SFleb (lit a) x && SFleb x (lit b).

End Float.

(** The paths of [pathlib]: the directory part is kept as it is, only the
    final component is inspected. *)
Record Path : Type := { parent : list pstr; name : pstr }.

(** A surrogate code point, [U+D800 .. U+DFFF]: [json.loads] builds one
    from an escape such as ["\ud83d"] that has no partner. *)
Definition surrogate (c : N) : bool := ((55296 <=? c) && (c <=? 57343))%N.

(** ** The standard-library functions the validator calls

    [datetime.fromisoformat], the order on [datetime] objects and the
    parsing done by [float(str)] are not part of the repository; the
    development is parametric in them.  [fromisoformat] and [float_of_str]
    return [None] where Python raises [ValueError]; [dt_compare] returns
    [None] where Python raises [TypeError] (an offset-naive [datetime]
    compared with an offset-aware one).  The comparison is antisymmetric,
    as every rich comparison of [datetime] comes from one three-way
    comparison.

    [Path.write_text] opens the file with the default text encoding and
    strict error handling: [opens_for_writing] tells whether [open(p, "w")]
    succeeds ([OSError] otherwise), [encodable] which code points that
    encoding has ([UnicodeEncodeError] otherwise).  No text encoding has
    the surrogates. *)
Class Library : Type := {
  datetime : Type;
  fromisoformat : pstr -> option datetime;
  dt_compare : datetime -> datetime -> option comparison;
  float_of_str : pstr -> option spec_float;
  encodable : N -> bool;
  opens_for_writing : Path -> bool;
  dt_compare_antisym :
    forall a b, dt_compare b a = option_map CompOpp (dt_compare a b);
  encodable_surrogate :
    forall c, surrogate c = true -> encodable c = false
}.

(** ** Output *)

(** The lines written by [print], one constructor per format string. *)
Inductive line : Type :=
| ErrFileNotFound (path : Path)
| ErrNotList
| MissingFields (i : nat) (missing : list pstr)
| LatOutOfRange (i : nat) (lat : spec_float)
| LonOutOfRange (i : nat) (lon : spec_float)
| NotNumeric (i : nat) (lat lon : option value)
| ArrivalAfterDeparture (i : nat) (arrival_raw departure_raw : value)
| SwappingDates (i : nat)
| PlaceholderInLink (i : nat)
| ClearedPlaceholder (i : nat)
| SuspiciousLink (i : nat)
| WroteCleaned (out_path : Path)
| ValidationPassed
| ValidationFailed.

(** What a run does to the outside: a line on standard output, the text
    of [json.dumps(cleaned, ensure_ascii=..., indent=...)] written to a
    path, a file left empty by a write that opened it and then raised,
    and the traceback of an unhandled exception. *)
Inductive event : Type :=
| Stdout (l : line)
| WriteJson (out_path : Path) (cleaned : list value)
            (ensure_ascii : bool) (indent : nat)
| Truncated (out_path : Path)
| Traceback (e : exn).

(** [PurePath.suffix], [PurePath.stem] and [PurePath.with_name]: the
    suffix starts at the last dot of the final component, unless that dot
    is its first or its last character. *)
Module pathlib.

Definition dot : N := 46.

Definition suffix (p : Path) : pstr :=
  match Str.rfind dot (name p) with
  | Some i =>
      if (0 <? i)%nat && (i <? length (name p) - 1)%nat
      then drop i (name p) else []
  | None => []
  end.

Definition stem (p : Path) : pstr :=
  match Str.rfind dot (name p) with
  | Some i =>
      if (0 <? i)%nat && (i <? length (name p) - 1)%nat
      then take i (name p) else name p
  | None => name p
  end.

Definition with_name (p : Path) (n : pstr) : Path :=
  {| parent := parent p; name := n |}.

End pathlib.

(** What is found at the path given to [main]: nothing; something
    [read_text] cannot read; a text [json.loads] rejects; or a text that
    decodes to a value. *)
Inductive file : Type :=
| NoFile
| Unreadable
| Malformed
| Json (v : value).

(** ** Computations that print and may raise *)

Definition M (A : Type) : Type := (list event * result A)%type.

Definition ret {A} (a : A) : M A := ([], Ok a).
Definition raise {A} (e : exn) : M A := ([], Raise e).
Definition print (l : line) : M unit := ([Stdout l], Ok tt).
Definition emit (e : event) : M unit := ([e], Ok tt).
Definition lift {A} (r : result A) : M A := ([], r).

Definition bind {A B} (m : M A) (k : A -> M B) : M B :=
  match m with
  | (o, Raise e) => (o, Raise e)
  | (o, Ok a) => let (o', r) := k a in (o ++ o', r)
  end.

Notation "x <- m ; k" := (bind m (fun x => k))
  (at level 20, m at level 100, k at level 200, only parsing).
Notation "' p <- m ; k" := (bind m (fun p => k))
  (at level 20, p pattern, m at level 100, k at level 200, only parsing).

(** ** The module *)

Definition REQUIRED_FIELDS : list pstr :=
  List.map py
    ["number"; "name"; "lat"; "lon"; "arrival"; "departure"; "duration";
     "distance"; "type"; "link"; "season"]%string.

(** The pattern of [remove_emojis] matches one code point in
    [U+10000 .. U+10FFFF]; [sub('', text)] deletes every match.  The
    pattern is a constant that compiles and the only caller passes a
    [str], so the [except] branch is never entered. *)
Definition remove_emojis (text : pstr) : pstr :=
  List.filter (fun c => negb ((65536 <=? c) && (c <=? 1114111))%N) text.

(** [ok] holds of every string of a value: the string itself, the
    items of a list, the keys and the values of an object. *)
Fixpoint strings_ok (ok : pstr -> bool) (v : value) : bool :=
  match v with
  | VStr s => ok s
  | VList l => forallb (strings_ok ok) l
  | VDict d =>
      map_fold (fun k v' acc => ok k && strings_ok ok v' && acc) true d
  | VNone | VBool _ | VInt _ | VFloat _ => true
  end.

Section Validator.

Context {L : Library}.

(** The text of [json.dumps(cleaned, ensure_ascii=False, indent=2)] can
    be encoded.  Next to ASCII, which every default encoding has, the
    text holds the code points of the strings of [cleaned] as they
    are. *)
Definition encodes (cleaned : list value) : bool :=
  forallb (strings_ok (forallb (fun c => (c <? 128)%N || encodable c))) cleaned.

(** [float(x)]; every exception it raises is an [Exception]. *)
Definition float (x : value) : result spec_float :=
  match x with
  | VFloat f => Ok f
  | VInt z => Float.of_int z
  | VBool b => Ok (Float.lit (if b then 1 else 0))
  | VStr s =>
      match float_of_str s with
      | Some f => Ok f
      | None => Raise ValueError
      end
  | VNone | VList _ | VDict _ => Raise TypeError
  end.

(** [parse_date]: [fromisoformat] raises [TypeError] on anything but a
    [str] and [ValueError] on a string it cannot read. *)
Definition parse_date (s : value) : option datetime :=
  match s with
  | VStr s => fromisoformat s
  | _ => None
  end.

(** *** The body of the loop in [main], block by block *)

(** Line 59, [[f for f in REQUIRED_FIELDS if f not in item]]: a key
    test on a [dict], a substring test on a [str], a membership test on
    a [list], [TypeError] on any other value. *)
Definition missing_fields (item : value) : result (list pstr) :=
  match item with
  | VDict d => Ok (List.filter (absent d) REQUIRED_FIELDS)
  | VStr s =>
      Ok (List.filter (fun f => negb (Str.contains f s)) REQUIRED_FIELDS)
  | VList l =>
      Ok (List.filter
            (fun f => negb (existsb
               (fun v => match v with
                         | VStr s => bool_decide (s = f)
                         | _ => false
                         end) l))
            REQUIRED_FIELDS)
  | VNone | VBool _ | VInt _ | VFloat _ => Raise TypeError
  end.

(** Lines 59-62. *)
Definition check_missing (i : nat) (item : value) : M bool :=
  missing <- lift (missing_fields item) ;
  match missing with
  | [] => ret true
  | _ :: _ => _ <- print (MissingFields i missing) ; ret false
  end.

(** Lines 65-76: the whole block is one [try]; a failed coercion of
    either coordinate skips both range tests. *)
Definition check_latlon (i : nat) (item : dict) (row_ok : bool) : M bool :=
  match float (dict_get item (py "lat") (VInt 0)) with
  | Raise _ =>
      _ <- print (NotNumeric i (item !! py "lat") (item !! py "lon")) ;
      ret false
  | Ok lat =>
      match float (dict_get item (py "lon") (VInt 0)) with
      | Raise _ =>
          _ <- print (NotNumeric i (item !! py "lat") (item !! py "lon")) ;
          ret false
      | Ok lon =>
          row_ok <- (if Float.between (-90) 90 lat then ret row_ok
                     else _ <- print (LatOutOfRange i lat) ; ret false) ;
          (if Float.between (-180) 180 lon then ret row_ok
           else _ <- print (LonOutOfRange i lon) ; ret false)
      end
  end.

(** Lines 79-91.  A [datetime] is always true in a condition, so
    [arrival and departure and arrival > departure] compares exactly
    when both strings parsed. *)
Definition check_dates (fix_ : bool) (i : nat) (item : dict) (row_ok : bool)
  : M (dict * bool) :=
  let arrival_raw := dict_get item (py "arrival") (VStr []) in
  let departure_raw := dict_get item (py "departure") (VStr []) in
  match parse_date arrival_raw, parse_date departure_raw with
  | Some arrival, Some departure =>
      match dt_compare arrival departure with
      | None => raise TypeError
      | Some Gt =>
          _ <- print (ArrivalAfterDeparture i arrival_raw departure_raw) ;
          if fix_ then
            _ <- print (SwappingDates i) ;
            ret (<[py "departure" := arrival_raw]>
                   (<[py "arrival" := departure_raw]> item), row_ok)
          else ret (item, false)
      | Some _ => ret (item, row_ok)
      end
  | _, _ => ret (item, row_ok)
  end.

(** Lines 94-107.  [link] is read once, before the first check, and
    both checks test that value. *)
Definition check_link (fix_ : bool) (i : nat) (item : dict) (row_ok : bool)
  : M (dict * bool) :=
  let link := dict_get item (py "link") (VStr []) in
  '(item, row_ok) <-
    (match link with
     | VStr s =>
         if Str.contains (py "User to research") s then
           _ <- print (PlaceholderInLink i) ;
           if fix_ then
             _ <- print (ClearedPlaceholder i) ;
             ret (<[py "link" := VStr []]> item, row_ok)
           else ret (item, false)
         else ret (item, row_ok)
     | _ => ret (item, row_ok)
     end) ;
  match link with
  | VStr s =>
      if negb (Str.contains (py "http") s) && (200 <? length s)%nat then
        _ <- print (SuspiciousLink i) ;
        if fix_ then ret (<[py "link" := VStr []]> item, row_ok)
        else ret (item, false)
      else ret (item, row_ok)
  | _ => ret (item, row_ok)
  end.

(** [remove_emojis(v).strip()] on a [str], any other value as it is. *)
Definition clean_value (v : value) : value :=
  match v with
  | VStr s => VStr (Str.strip (remove_emojis s))
  | _ => v
  end.

(** Lines 110-114: the loop runs over a snapshot of the items and
    assigns into the dictionary itself. *)
Definition normalize (fix_ : bool) (item : dict) : dict :=
  if fix_ then
    map_fold (fun k v (acc : dict) =>
                match v with
                | VStr s => <[k := VStr (Str.strip (remove_emojis s))]> acc
                | _ => acc
                end) item item
  else item.

(** One iteration of the loop, lines 58-116: the item as it is
    appended to [cleaned], and [row_ok].  An item that is not a [dict]
    has no [get]: the [AttributeError] of line 66 is caught, and raised
    again by the format string of line 75. *)
Definition main_row (fix_ : bool) (i : nat) (item : value) : M (value * bool) :=
  row_ok <- check_missing i item ;
  match item with
  | VDict d =>
      row_ok <- check_latlon i d row_ok ;
      '(d, row_ok) <- check_dates fix_ i d row_ok ;
      '(d, row_ok) <- check_link fix_ i d row_ok ;
      ret (VDict (normalize fix_ d), row_ok)
  | _ => raise AttributeError
  end.

(** The loop of lines 57-118; [cleaned] holds the items themselves,
    as the loop has left them. *)
Fixpoint loop (fix_ : bool) (i : nat) (data cleaned : list value) (ok : bool)
  : M (list value * bool) :=
  match data with
  | [] => ret (cleaned, ok)
  | item :: data' =>
      '(item, row_ok) <- main_row fix_ i item ;
      loop fix_ (S i) data' (cleaned ++ [item]) (if row_ok then ok else false)
  end.

(** Lines 120-123.  [write_text] opens the file, which empties it, and
    then writes the text: when the file does not open nothing has
    happened, when the text cannot be encoded the file is left empty. *)
Definition write_output (p : Path) (fix_ inplace : bool) (cleaned : list value)
  : M unit :=
  match fix_, cleaned with
  | true, _ :: _ =>
      let out_path :=
        if inplace then p
        else pathlib.with_name p
               (pathlib.stem p ++ py ".fixed" ++ pathlib.suffix p) in
      if opens_for_writing out_path then
        if encodes cleaned then
          _ <- emit (WriteJson out_path cleaned false 2) ;
          print (WroteCleaned out_path)
        else
          _ <- emit (Truncated out_path) ;
          raise UnicodeEncodeError
      else raise OSError
  | _, _ => ret tt
  end.

(** [main(path, fix, inplace)], with [f] what the file system holds at
    [path]. *)
Definition main (f : file) (path : Path) (fix_ inplace : bool) : M Z :=
  match f with
  | NoFile => _ <- print (ErrFileNotFound path) ; ret 1
  | Unreadable => raise OSError
  | Malformed => raise JSONDecodeError
  | Json (VList data) =>
      '(cleaned, ok) <- loop fix_ 1 data [] true ;
      _ <- write_output path fix_ inplace cleaned ;
      if ok then _ <- print ValidationPassed ; ret 0
      else _ <- print ValidationFailed ; ret 1
  | Json _ => _ <- print ErrNotList ; ret 1
  end.

(** The [__main__] block, [sys.exit(main(...))]: the trace of the run
    and the exit status of the process.  An exception nobody handles
    ends the interpreter with its traceback and status 1. *)
Definition script (f : file) (path : Path) (fix_ inplace : bool)
  : list event * Z :=
  match main f path fix_ inplace with
  | (o, Ok status) => (o, status)
  | (o, Raise e) => (o ++ [Traceback e], 1)
  end.

End Validator.

(** ** A concrete library, for running the validator on examples

    It reads the calendar dates [YYYY-MM-DD] and the unsigned decimal
    integers, which Python reads the same way, and nothing else: enough
    for the data of [tests/run_validation_tests.py].  Every date it
    yields is offset-naive, so two of them always compare.  Its files
    open, and its text encoding is UTF-8, which has every code point but
    the surrogates. *)
Module Sample.

Definition digit (c : N) : option Z :=
  if ((48 <=? c) && (c <=? 57))%N then Some (Z.of_N c - 48) else None.

Fixpoint number (acc : Z) (s : pstr) : option Z :=
  match s with
  | [] => Some acc
  | c :: s' =>
      match digit c with
      | Some d => number (10 * acc + d) s'
      | None => None
      end
  end.

Definition leap (y : Z) : bool :=
  (y mod 4 =? 0) && (negb (y mod 100 =? 0) || (y mod 400 =? 0)).

Definition days_in_month (y m : Z) : Z :=
  if m =? 2 then (if leap y then 29 else 28)
  else if (m =? 4) || (m =? 6) || (m =? 9) || (m =? 11) then 30
  else 31.

(** A date as the number [10000 * year + 100 * month + day], which is
    ordered as the dates are. *)
Definition iso_date (s : pstr) : option Z :=
  match s with
  | [y1; y2; y3; y4; 45; m1; m2; 45; d1; d2]%N =>
      match number 0 [y1; y2; y3; y4], number 0 [m1; m2], number 0 [d1; d2] with
      | Some y, Some m, Some d =>
          if (1 <=? y) && (1 <=? m) && (m <=? 12) && (1 <=? d)
             && (d <=? days_in_month y m)
          then Some (10000 * y + 100 * m + d) else None
      | _, _, _ => None
      end
  | _ => None
  end.

Definition decimal (s : pstr) : option spec_float :=
  match s with
  | [] => None
  | _ :: _ => option_map Float.lit (number 0 s)
  end.

#[export] Instance library : Library := {|
  datetime := Z;
  fromisoformat := iso_date;
  dt_compare := fun a b => Some (a ?= b);
  float_of_str := decimal;
  encodable := fun c => negb (surrogate c);
  opens_for_writing := fun _ => true;
  dt_compare_antisym := fun a b => f_equal Some (Z.compare_antisym a b);
  encodable_surrogate := fun c H => f_equal negb H
|}.

(** A record from its fields. *)
Definition record (fields : list (string * value)) : dict :=
  list_to_map (List.map (fun kv => (py (fst kv), snd kv)) fields).

Definition str (s : string) : value := VStr (py s).

(** [good_data] and [bad_data] of [tests/run_validation_tests.py]. *)
Definition good_record : dict :=
  record [("number", VInt 1); ("name", str "A"); ("lat", VInt 45);
          ("lon", VInt 12); ("arrival", str "2026-07-01");
          ("departure", str "2026-07-02"); ("duration", str "1 day");
          ("distance", str "10 km"); ("type", str "Marina");
          ("link", str "https://example.com"); ("season", str "summer")]%string.

Definition bad_record : dict :=
  record [("number", VInt 1); ("name", str "B"); ("lat", VInt 95);
          ("lon", VInt 12); ("arrival", str "2026-07-05");
          ("departure", str "2026-07-01"); ("duration", str "1 day");
          ("distance", str "10 km"); ("type", str "Marina");
          ("link", str "User to research"); ("season", str "summer")]%string.

(** The good record without its latitude and with a longitude of 200. *)
Definition lat_missing : dict :=
  <[py "lon" := VInt 200]> (delete (py "lat") good_record).

(** The good record without coordinates. *)
Definition no_coordinates : dict :=
  delete (py "lon") (delete (py "lat") good_record).

(** The good record with an arrival that is no date. *)
Definition undated : dict := <[py "arrival" := str "soon"]> good_record.






(** The good record with the name ["A\ud83d"], as [json.load] reads it
    from the escape [\ud83d]: a lone surrogate, which UTF-8 does not
    encode. *)
Definition lone_surrogate : dict :=
  <[py "name" := VStr (py "A" ++ [55357%N])]> good_record.

(** The good record with [null] for its latitude. *)
Definition lat_null : dict := <[py "lat" := VNone]> good_record.

(** The good record with the JSON literal [NaN] for its latitude. *)
Definition lat_nan : dict := <[py "lat" := VFloat S754_nan]> good_record.

(** The bad record with a latitude within range: fix mode repairs what
    is left. *)
Definition repairable : dict := <[py "lat" := VInt 45]> bad_record.

Definition good_data : list value := [VDict good_record].
Definition bad_data : list value := [VDict bad_record].

Definition good_json : Path := {| parent := [py "tests"; py "tmp"]; name := py "good.json" |}.
Definition bad_json : Path := {| parent := [py "tests"; py "tmp"]; name := py "bad.json" |}.

End Sample.

(** A string that does not start with white space. *)
Definition starts_clean (s : pstr) : bool :=
  match s with
  | [] => true
  | c :: _ => negb (Str.isspace c)
  end.

(** ** The conditions the specification puts on a record *)

Section Conditions.

Context {L : Library}.

(** Every required field is a key of the record. *)
Definition complete (d : dict) : bool :=
  forallb (fun f => negb (absent d f)) REQUIRED_FIELDS.

(** The field [k] is present, coerces to a number, and the number lies
    in [[lo, hi]]. *)
Definition coordinate_within (lo hi : Z) (d : dict) (k : pstr) : bool :=
  match d !! k with
  | Some v =>
      match float v with
      | Ok x => Float.between lo hi x
      | Raise _ => false
      end
  | None => false
  end.

(** [arrival <= departure] whenever both parse. *)
Definition dates_ordered (d : dict) : bool :=
  match parse_date (dict_get d (py "arrival") (VStr [])),
        parse_date (dict_get d (py "departure") (VStr [])) with
  | Some a, Some b =>
      match dt_compare a b with
      | Some Lt | Some Eq => true
      | Some Gt | None => false
      end
  | _, _ => true
  end.

(** A [link] that is a string has no placeholder text, and contains
    ["http"] or has at most 200 characters. *)
Definition link_clean (d : dict) : bool :=
  match d !! py "link" with
  | Some (VStr s) =>
      negb (Str.contains (py "User to research") s)
      && (Str.contains (py "http") s || (length s <=? 200)%nat)
  | _ => true
  end.

Definition valid_record (d : dict) : bool :=
  complete d
  && coordinate_within (-90) 90 d (py "lat")
  && coordinate_within (-180) 180 d (py "lon")
  && dates_ordered d
  && link_clean d.

(** The date comparison of the row is defined: not both dates parse,
    or the two [datetime] objects compare. *)
Definition dates_comparable (d : dict) : bool :=
  match parse_date (dict_get d (py "arrival") (VStr [])),
        parse_date (dict_get d (py "departure") (VStr [])) with
  | Some a, Some b =>
      match dt_compare a b with
      | Some _ => true
      | None => false
      end
  | _, _ => true
  end.

(** Both coordinates, absent ones replaced by [0], coerce to numbers
    within their ranges. *)
Definition coordinates_pass (d : dict) : bool :=
  match float (dict_get d (py "lat") (VInt 0)),
        float (dict_get d (py "lon") (VInt 0)) with
  | Ok lat, Ok lon =>
      Float.between (-90) 90 lat && Float.between (-180) 180 lon
  | _, _ => false
  end.

(** Both dates parse and [arrival > departure]. *)
Definition dates_inverted (d : dict) : bool :=
  match parse_date (dict_get d (py "arrival") (VStr [])),
        parse_date (dict_get d (py "departure") (VStr [])) with
  | Some a, Some b =>
      match dt_compare a b with
      | Some Gt => true
      | _ => false
      end
  | _, _ => false
  end.

(** The placeholder text is in [link]. *)
Definition link_placeholder (d : dict) : bool :=
  match d !! py "link" with
  | Some (VStr s) => Str.contains (py "User to research") s
  | _ => false
  end.

(** [link] has more than 200 characters and no ["http"]. *)
Definition link_suspicious (d : dict) : bool :=
  match d !! py "link" with
  | Some (VStr s) => negb (Str.contains (py "http") s) && (200 <? length s)%nat
  | _ => false
  end.

(** The repairs of fix mode, as the specification words them: swap the
    two dates when they are inverted, empty a flagged link, normalise
    every string. *)
Definition swap_dates (d : dict) : dict :=
  if dates_inverted d then
    <[py "departure" := dict_get d (py "arrival") (VStr [])]>
      (<[py "arrival" := dict_get d (py "departure") (VStr [])]> d)
  else d.

Definition clear_link (d : dict) : dict :=
  if link_placeholder d || link_suspicious d then <[py "link" := VStr []]> d
  else d.

Definition clean_record (d : dict) : dict := clean_value <$> d.

Definition fix_record (d : dict) : dict :=
  clean_record (clear_link (swap_dates d)).

(** Whether a row passes, and the record a row leaves behind, when its
    dates compare. *)
Definition row_passes (fix_ : bool) (d : dict) : bool :=
  complete d && coordinates_pass d
  && (fix_ || negb (dates_inverted d)
              && negb (link_placeholder d || link_suspicious d)).

Definition row_record (fix_ : bool) (d : dict) : dict :=
  if fix_ then fix_record d else d.

(** The row of this item runs to its end: the item is a record whose
    dates compare. *)
Definition row_completes (item : value) : bool :=
  match item with
  | VDict d => dates_comparable d
  | _ => false
  end.

(** The writes of a trace: what has touched a file. *)
Definition writes (o : list event) : list event :=
  List.filter (fun e => match e with
                        | WriteJson _ _ _ _ | Truncated _ => true
                        | _ => false
                        end) o.

End Conditions.

(** ** Further notions, for the properties beyond the claims *)

(** A code point that [remove_emojis] keeps. *)
Definition bmp (c : N) : bool := negb ((65536 <=? c) && (c <=? 1114111))%N.

(** A string that text normalisation leaves alone: no code point above
    the basic plane, no white space at either end. *)
Definition clean_str (s : pstr) : bool :=
  forallb bmp s && starts_clean s && starts_clean (rev s).

(** A float that is no number or no finite one: [NaN], [Infinity],
    [-Infinity], which [json.loads] accepts. *)
Definition nonfinite (x : spec_float) : bool :=
  match x with
  | S754_nan | S754_infinity _ => true
  | S754_zero _ | S754_finite _ _ _ => false
  end.

(** The row number a line carries. *)
Definition line_row (l : line) : option nat :=
  match l with
  | MissingFields i _ | LatOutOfRange i _ | LonOutOfRange i _
  | NotNumeric i _ _ | ArrivalAfterDeparture i _ _ | SwappingDates i
  | PlaceholderInLink i | ClearedPlaceholder i | SuspiciousLink i => Some i
  | ErrFileNotFound _ | ErrNotList | WroteCleaned _
  | ValidationPassed | ValidationFailed => None
  end.

Definition event_row (e : event) : option nat :=
  match e with
  | Stdout l => line_row l
  | WriteJson _ _ _ _ | Truncated _ | Traceback _ => None
  end.

Section Outcomes.

Context {L : Library}.

(** The exception a row ends with, if it does: [TypeError] from line 59
    for an item without [in], [AttributeError] from line 75 for a string
    or a list, [TypeError] from line 83 for a record whose dates parse
    and do not compare. *)
Definition row_exn (item : value) : option exn :=
  match item with
  | VDict d => if dates_comparable d then None else Some TypeError
  | VStr _ | VList _ => Some AttributeError
  | VNone | VBool _ | VInt _ | VFloat _ => Some TypeError
  end.

(** The exception of the first row that raises. *)
Fixpoint first_exn (data : list value) : option exn :=
  match data with
  | [] => None
  | item :: data' =>
      match row_exn item with
      | Some e => Some e
      | None => first_exn data'
      end
  end.

(** The item is a record whose row passes. *)
Definition item_passes (fix_ : bool) (item : value) : bool :=
  match item with
  | VDict d => row_passes fix_ d
  | _ => false
  end.

End Outcomes.

(** [tests/run_validation_tests.py]: [run] is the exit status of
    [python3 validate_data.py <path>]; the file at the path holds
    [json.dumps] of the data, which [json.loads] reads back.  [main]
    returns 0 when the tests have passed. *)
Module run_validation_tests.

Definition run {L : Library} (f : file) (path : Path) : Z :=
  snd (script f path false false).

Definition main {L : Library} : Z :=
  let rc_good := run (Json (VList Sample.good_data)) Sample.good_json in
  let rc_bad := run (Json (VList Sample.bad_data)) Sample.bad_json in
  if (rc_good =? 0) && negb (rc_bad =? 0) then 0 else 1.

End run_validation_tests.

(** * Properties *)

(** Two keys of the source are different strings. *)
Ltac key_neq :=
  let H := fresh in intros H; vm_compute in H; discriminate H.

(** ** Strings *)

Section Strings.

Lemma lstrip_Forall (P : N -> Prop) (s : pstr) :
  Forall P s -> Forall P (Str.lstrip s).
Proof.
  induction 1 as [|c s Hc Hs IH]; simpl; [constructor|].
  destruct (Str.isspace c); [exact IH | constructor; assumption].
Qed.

Lemma strip_Forall (P : N -> Prop) (s : pstr) :
  Forall P s -> Forall P (Str.strip s).
Proof.
  intros H. unfold Str.strip, Str.rstrip.
  apply lstrip_Forall, Forall_rev, lstrip_Forall, Forall_rev, H.
Qed.

Lemma lstrip_length (s : pstr) : (length (Str.lstrip s) <= length s)%nat.
Proof.
  induction s as [|c s IH]; simpl; [lia|].
  destruct (Str.isspace c); simpl; lia.
Qed.

Lemma lstrip_starts_clean (s : pstr) : starts_clean (Str.lstrip s) = true.
Proof.
  induction s as [|c s IH]; simpl; [reflexivity|].
  destruct (Str.isspace c) eqn:E; [exact IH | simpl; rewrite E; reflexivity].
Qed.

Lemma lstrip_fixed (s : pstr) : starts_clean s = true -> Str.lstrip s = s.
Proof.
  destruct s as [|c s]; simpl; [reflexivity|].
  destruct (Str.isspace c); [discriminate | reflexivity].
Qed.

Lemma starts_clean_app (s t : pstr) :
  s <> [] -> starts_clean (s ++ t) = starts_clean s.
Proof. destruct s; [congruence | reflexivity]. Qed.

Lemma rev_lstrip_starts_clean (u : pstr) :
  starts_clean (rev u) = true -> starts_clean (rev (Str.lstrip u)) = true.
Proof.
  induction u as [|c t IH]; simpl; [reflexivity|].
  destruct (Str.isspace c) eqn:E; [|intros H; exact H].
  intros H. apply IH. destruct (rev t) as [|x r] eqn:Er.
  - reflexivity.
  - rewrite starts_clean_app in H by discriminate. exact H.
Qed.

Lemma strip_strip (s : pstr) : Str.strip (Str.strip s) = Str.strip s.
Proof.
  unfold Str.strip at 1. unfold Str.rstrip.
  assert (H : starts_clean (rev (Str.strip s)) = true).
  { unfold Str.strip. apply rev_lstrip_starts_clean.
    unfold Str.rstrip. rewrite rev_involutive. apply lstrip_starts_clean. }
  rewrite (lstrip_fixed _ H), rev_involutive.
  apply lstrip_fixed. unfold Str.strip. apply lstrip_starts_clean.
Qed.

Lemma remove_emojis_fixed (s : pstr) :
  Forall (fun c => negb ((65536 <=? c) && (c <=? 1114111))%N = true) s ->
  remove_emojis s = s.
Proof.
  unfold remove_emojis. induction 1 as [|c s Hc Hs IH]; simpl; [reflexivity|].
  rewrite Hc, IH. reflexivity.
Qed.

Lemma remove_emojis_Forall (s : pstr) :
  Forall (fun c => negb ((65536 <=? c) && (c <=? 1114111))%N = true)
         (remove_emojis s).
Proof.
  unfold remove_emojis. induction s as [|c s IH]; simpl; [constructor|].
  destruct (negb _) eqn:E; [constructor; assumption | exact IH].
Qed.

(** The text normalisation of fix mode is idempotent. *)
Lemma clean_str_idempotent (s : pstr) :
  Str.strip (remove_emojis (Str.strip (remove_emojis s)))
  = Str.strip (remove_emojis s).
Proof.
  rewrite (remove_emojis_fixed (Str.strip (remove_emojis s))).
  - apply strip_strip.
  - apply strip_Forall, remove_emojis_Forall.
Qed.

End Strings.

Section Properties.

Context {L : Library}.

Arguments py : simpl never.

(** ** The monad *)

Lemma bind_Ok {A B} (o : list event) (a : A) (k : A -> M B) :
  bind (o, Ok a) k = (o ++ fst (k a), snd (k a)).
Proof. unfold bind. destruct (k a); reflexivity. Qed.

Lemma bind_Raise {A B} (o : list event) (e : exn) (k : A -> M B) :
  bind (o, Raise e) k = (o, Raise e).
Proof. reflexivity. Qed.

Lemma bind_output {A B} (m : M A) (k : A -> M B) :
  exists o, fst (bind m k) = fst m ++ o.
Proof.
  destruct m as [o [a|e]].
  - rewrite bind_Ok. eauto.
  - exists []. simpl. rewrite app_nil_r. reflexivity.
Qed.

(** ** Text normalisation *)

Lemma clean_value_idempotent (v : value) :
  clean_value (clean_value v) = clean_value v.
Proof.
  destruct v; try reflexivity. simpl. f_equal. apply clean_str_idempotent.
Qed.

Lemma normalize_lookup (d : dict) (k : pstr) :
  normalize true d !! k = clean_value <$> d !! k.
Proof.
  unfold normalize.
  set (f := fun (k : pstr) (v : value) (acc : dict) =>
              match v with
              | VStr s => <[k := VStr (Str.strip (remove_emojis s))]> acc
              | _ => acc
              end).
  cut (forall m : dict, m ⊆ d ->
         forall k, map_fold f d m !! k =
                   match m !! k with
                   | Some v => Some (clean_value v)
                   | None => d !! k
                   end).
  { intros H. rewrite (H d) by reflexivity. destruct (d !! k); reflexivity. }
  intros m. apply (map_fold_weak_ind
    (fun (r : dict) (m : dict) => m ⊆ d -> forall k, r !! k =
       match m !! k with Some v => Some (clean_value v) | None => d !! k end)).
  - intros _ k'. rewrite lookup_empty. reflexivity.
  - intros i x m' r Hi IH Hsub k'.
    assert (Hx : d !! i = Some x).
    { eapply lookup_weaken; [|exact Hsub]. apply lookup_insert_eq. }
    assert (Hm : m' ⊆ d).
    { etrans; [|exact Hsub]. apply insert_subseteq, Hi. }
    specialize (IH Hm).
    destruct (decide (i = k')) as [->|Hne].
    + rewrite lookup_insert_eq. unfold f.
      destruct x; simpl; try (rewrite IH, Hi; exact Hx).
      apply lookup_insert_eq.
    + rewrite (lookup_insert_ne m') by exact Hne.
      unfold f. destruct x; try apply IH.
      rewrite lookup_insert_ne by exact Hne. apply IH.
Qed.

Lemma normalize_fmap (d : dict) : normalize true d = clean_value <$> d.
Proof. apply map_eq. intros k. rewrite normalize_lookup, lookup_fmap. reflexivity. Qed.

(** ** The blocks of a row *)

Lemma filter_absent_complete (d : dict) :
  complete d = true -> List.filter (absent d) REQUIRED_FIELDS = [].
Proof.
  unfold complete. generalize REQUIRED_FIELDS as fs.
  induction fs as [|f fs IH]; simpl; [reflexivity|].
  intros [Hf Hfs]%andb_true_iff.
  destruct (absent d f); [discriminate|]. auto.
Qed.

Lemma check_missing_dict (i : nat) (d : dict) :
  check_missing i (VDict d) =
    match List.filter (absent d) REQUIRED_FIELDS with
    | [] => ([], Ok true)
    | f :: fs => ([Stdout (MissingFields i (f :: fs))], Ok false)
    end.
Proof.
  unfold check_missing, missing_fields, lift, bind.
  destruct (List.filter (absent d) REQUIRED_FIELDS); reflexivity.
Qed.

Lemma coordinate_within_get (lo hi : Z) (d : dict) (k : pstr) :
  coordinate_within lo hi d k = true ->
  exists x, float (dict_get d k (VInt 0)) = Ok x /\ Float.between lo hi x = true.
Proof.
  unfold coordinate_within, dict_get. destruct (d !! k) as [v|]; [|discriminate].
  destruct (float v) as [x|]; [|discriminate]. eauto.
Qed.

Lemma check_latlon_within (i : nat) (d : dict) (row_ok : bool) :
  coordinate_within (-90) 90 d (py "lat") = true ->
  coordinate_within (-180) 180 d (py "lon") = true ->
  check_latlon i d row_ok = ([], Ok row_ok).
Proof.
  intros (lat & Hlat & Hr)%coordinate_within_get
         (lon & Hlon & Hr')%coordinate_within_get.
  unfold check_latlon. rewrite Hlat, Hlon, Hr, Hr'. reflexivity.
Qed.

Lemma check_dates_ordered (fix_ : bool) (i : nat) (d : dict) (row_ok : bool) :
  dates_ordered d = true -> check_dates fix_ i d row_ok = ([], Ok (d, row_ok)).
Proof.
  unfold dates_ordered, check_dates.
  destruct (parse_date _) as [a|]; [|reflexivity].
  destruct (parse_date _) as [b|]; [|reflexivity].
  destruct (dt_compare a b) as [[]|]; (reflexivity || discriminate).
Qed.

Lemma check_link_clean (fix_ : bool) (i : nat) (d : dict) (row_ok : bool) :
  link_clean d = true -> check_link fix_ i d row_ok = ([], Ok (d, row_ok)).
Proof.
  unfold link_clean, check_link, dict_get.
  destruct (d !! py "link") as [[]|]; try reflexivity.
  intros [Hp Hl]%andb_true_iff. apply negb_true_iff in Hp. rewrite Hp.
  simpl. replace (negb _ && _) with false; [reflexivity|].
  destruct (Str.contains (py "http") s); [reflexivity|]. simpl in *.
  symmetry. apply Nat.ltb_ge. apply Nat.leb_le in Hl. exact Hl.
Qed.

Lemma main_row_valid (i : nat) (d : dict) :
  valid_record d = true -> main_row false i (VDict d) = ([], Ok (VDict d, true)).
Proof.
  unfold valid_record.
  intros [[[[Hc Hlat]%andb_true_iff Hlon]%andb_true_iff Hd]%andb_true_iff Hl]%andb_true_iff.
  unfold main_row. rewrite check_missing_dict, (filter_absent_complete d Hc).
  unfold bind at 1. rewrite (check_latlon_within i d true Hlat Hlon).
  unfold bind at 1. rewrite (check_dates_ordered false i d true Hd).
  unfold bind at 1. rewrite (check_link_clean false i d true Hl).
  reflexivity.
Qed.

(** ** What a row returns *)

Lemma snd_bind {A B} (m : M A) (k : A -> M B) :
  snd (bind m k) = match snd m with Ok a => snd (k a) | Raise e => Raise e end.
Proof. destruct m as [o [a|e]]; [rewrite bind_Ok|]; reflexivity. Qed.

Lemma fst_bind {A B} (m : M A) (k : A -> M B) :
  fst (bind m k) =
    fst m ++ match snd m with Ok a => fst (k a) | Raise e => [] end.
Proof.
  destruct m as [o [a|e]]; [rewrite bind_Ok; reflexivity|].
  simpl. rewrite app_nil_r. reflexivity.
Qed.

Lemma filter_absent_nil (d : dict) :
  List.filter (absent d) REQUIRED_FIELDS = [] -> complete d = true.
Proof.
  unfold complete. generalize REQUIRED_FIELDS as fs.
  induction fs as [|f fs IH]; simpl; [reflexivity|].
  destruct (absent d f); [discriminate|]. simpl. exact IH.
Qed.

Lemma check_missing_result (i : nat) (d : dict) :
  snd (check_missing i (VDict d)) = Ok (complete d).
Proof.
  rewrite check_missing_dict.
  destruct (List.filter (absent d) REQUIRED_FIELDS) eqn:E; simpl.
  - rewrite (filter_absent_nil d E). reflexivity.
  - destruct (complete d) eqn:Hc; [|reflexivity].
    rewrite (filter_absent_complete d Hc) in E. discriminate.
Qed.

Lemma check_latlon_result (i : nat) (d : dict) (row_ok : bool) :
  snd (check_latlon i d row_ok) = Ok (row_ok && coordinates_pass d).
Proof.
  unfold check_latlon, coordinates_pass.
  destruct (float (dict_get d (py "lat") (VInt 0))) as [lat|];
    [|rewrite andb_false_r; reflexivity].
  destruct (float (dict_get d (py "lon") (VInt 0))) as [lon|];
    [|rewrite andb_false_r; reflexivity].
  destruct (Float.between (-90) 90 lat), (Float.between (-180) 180 lon),
    row_ok; reflexivity.
Qed.

Lemma check_dates_result (fix_ : bool) (i : nat) (d : dict) (row_ok : bool) :
  snd (check_dates fix_ i d row_ok) =
    if dates_comparable d
    then Ok (if fix_ then swap_dates d else d,
             row_ok && (fix_ || negb (dates_inverted d)))
    else Raise TypeError.
Proof.
  unfold check_dates, dates_comparable, swap_dates, dates_inverted.
  destruct (parse_date (dict_get d (py "arrival") (VStr []))) as [a|];
    [|destruct fix_; simpl; rewrite ?andb_true_r; reflexivity].
  destruct (parse_date (dict_get d (py "departure") (VStr []))) as [b|];
    [|destruct fix_; simpl; rewrite ?andb_true_r; reflexivity].
  destruct (dt_compare a b) as [[]|]; destruct fix_; simpl;
    rewrite ?andb_true_r, ?andb_false_r; reflexivity.
Qed.

Lemma check_link_result (fix_ : bool) (i : nat) (d : dict) (row_ok : bool) :
  snd (check_link fix_ i d row_ok) =
    Ok (if fix_ then clear_link d else d,
        row_ok && (fix_ || negb (link_placeholder d || link_suspicious d))).
Proof.
  unfold check_link, clear_link, link_placeholder, link_suspicious, dict_get.
  destruct (d !! py "link") as [[]|];
    try (destruct fix_; simpl; rewrite ?andb_true_r; reflexivity).
  destruct (Str.contains (py "User to research") s);
    destruct (negb (Str.contains (py "http") s) && (200 <? length s)%nat);
    destruct fix_; simpl;
    rewrite ?andb_true_r, ?andb_false_r, ?insert_insert_eq; reflexivity.
Qed.

(** A row raises exactly when its two dates parse and do not compare;
    otherwise it returns the record, repaired in fix mode, and tells
    whether the row passed. *)
Lemma main_row_result (fix_ : bool) (i : nat) (d : dict) :
  snd (main_row fix_ i (VDict d)) =
    if dates_comparable d
    then Ok (VDict (row_record fix_ d), row_passes fix_ d)
    else Raise TypeError.
Proof.
  unfold main_row, row_record, row_passes.
  rewrite snd_bind, check_missing_result, snd_bind, check_latlon_result.
  rewrite snd_bind, check_dates_result.
  destruct (dates_comparable d); [|reflexivity].
  rewrite snd_bind, check_link_result. simpl.
  destruct fix_.
  - unfold fix_record, clean_record. rewrite normalize_fmap, !andb_true_r.
    reflexivity.
  - simpl. rewrite !andb_assoc. reflexivity.
Qed.

Lemma main_row_output (fix_ : bool) (i : nat) (d : dict) :
  fst (main_row fix_ i (VDict d)) =
    fst (check_missing i (VDict d))
    ++ fst (check_latlon i d (complete d))
    ++ fst (check_dates fix_ i d (complete d && coordinates_pass d))
    ++ (if dates_comparable d
        then fst (check_link fix_ i (if fix_ then swap_dates d else d)
                    (complete d && coordinates_pass d
                     && (fix_ || negb (dates_inverted d))))
        else []).
Proof.
  unfold main_row.
  rewrite fst_bind, check_missing_result. f_equal.
  rewrite fst_bind, check_latlon_result. f_equal.
  rewrite fst_bind, check_dates_result. f_equal.
  destruct (dates_comparable d); [|reflexivity].
  rewrite fst_bind, check_link_result. simpl. rewrite app_nil_r. reflexivity.
Qed.

Lemma check_link_output (fix_ : bool) (i : nat) (d : dict) (row_ok : bool) :
  fst (check_link fix_ i d row_ok) =
    (if link_placeholder d
     then Stdout (PlaceholderInLink i)
          :: (if fix_ then [Stdout (ClearedPlaceholder i)] else [])
     else [])
    ++ (if link_suspicious d then [Stdout (SuspiciousLink i)] else []).
Proof.
  unfold check_link, link_placeholder, link_suspicious, dict_get.
  destruct (d !! py "link") as [[]|]; try reflexivity.
  destruct (Str.contains (py "User to research") s);
    destruct (negb (Str.contains (py "http") s) && (200 <? length s)%nat);
    destruct fix_; reflexivity.
Qed.

Lemma swap_dates_other (d : dict) (k : pstr) :
  k <> py "arrival" -> k <> py "departure" -> swap_dates d !! k = d !! k.
Proof.
  intros Ha Hd. unfold swap_dates. destruct (dates_inverted d); [|reflexivity].
  rewrite !lookup_insert_ne by congruence. reflexivity.
Qed.

Lemma swap_dates_link (d : dict) :
  swap_dates d !! py "link" = d !! py "link".
Proof. apply swap_dates_other; key_neq. Qed.

Lemma clear_link_other (d : dict) (k : pstr) :
  k <> py "link" -> clear_link d !! k = d !! k.
Proof.
  intros Hk. unfold clear_link.
  destruct (link_placeholder d || link_suspicious d); [|reflexivity].
  rewrite lookup_insert_ne by congruence. reflexivity.
Qed.

(** A row that has failed one check does not pass. *)
Lemma main_row_fails (fix_ : bool) (i : nat) (d : dict) :
  row_passes fix_ d = false ->
  forall item, snd (main_row fix_ i (VDict d)) <> Ok (item, true).
Proof.
  intros H item. rewrite main_row_result.
  destruct (dates_comparable d); [|discriminate]. rewrite H. discriminate.
Qed.

(** ** The loop *)

Lemma loop_failed (fix_ : bool) (data : list value) (i : nat)
      (cleaned cleaned' : list value) :
  snd (loop fix_ i data cleaned false) <> Ok (cleaned', true).
Proof.
  revert i cleaned. induction data as [|item data IH]; intros i cleaned.
  - simpl. discriminate.
  - simpl. rewrite snd_bind.
    destruct (snd (main_row fix_ i item)) as [[item' []]|]; try discriminate;
      apply IH.
Qed.

(** One row that does not pass fails the whole loop. *)
Lemma loop_fails (fix_ : bool) (item : value) (data : list value) :
  In item data ->
  (forall i item', snd (main_row fix_ i item) <> Ok (item', true)) ->
  forall i cleaned ok cleaned',
    snd (loop fix_ i data cleaned ok) <> Ok (cleaned', true).
Proof.
  intros Hin Hrow. induction data as [|x data IH]; [destruct Hin|].
  intros i cleaned ok cleaned'. simpl. rewrite snd_bind.
  destruct (snd (main_row fix_ i x)) as [[x' r]|] eqn:E; [|discriminate].
  destruct Hin as [->|Hin].
  - destruct r; [exfalso; exact (Hrow i x' E)|]. apply loop_failed.
  - apply IH, Hin.
Qed.

Lemma write_output_nonfix (p : Path) (inplace : bool) (cleaned : list value) :
  write_output p false inplace cleaned = ([], Ok tt).
Proof. reflexivity. Qed.

(** [main] returns what the loop has found, unless the loop or the
    write raises. *)
Lemma main_result (data : list value) (path : Path) (fix_ inplace : bool) :
  snd (main (Json (VList data)) path fix_ inplace) =
    match snd (loop fix_ 1 data [] true) with
    | Ok (cleaned, ok) =>
        match snd (write_output path fix_ inplace cleaned) with
        | Ok _ => Ok (if ok then 0 else 1)
        | Raise e => Raise e
        end
    | Raise e => Raise e
    end.
Proof.
  unfold main. rewrite snd_bind.
  destruct (snd (loop fix_ 1 data [] true)) as [[cleaned ok]|]; [|reflexivity].
  rewrite snd_bind.
  destruct (snd (write_output path fix_ inplace cleaned)); [|reflexivity].
  destruct ok; reflexivity.
Qed.

Lemma main_result_nonfix (data : list value) (path : Path) (inplace : bool) :
  snd (main (Json (VList data)) path false inplace) =
    match snd (loop false 1 data [] true) with
    | Ok (_, ok) => Ok (if ok then 0 else 1)
    | Raise e => Raise e
    end.
Proof.
  rewrite main_result.
  destruct (snd (loop false 1 data [] true)) as [[cleaned ok]|]; reflexivity.
Qed.

Lemma script_status (f : file) (path : Path) (fix_ inplace : bool) :
  snd (script f path fix_ inplace) =
    match snd (main f path fix_ inplace) with
    | Ok status => status
    | Raise _ => 1
    end.
Proof.
  unfold script. destruct (main f path fix_ inplace) as [o [status|e]]; reflexivity.
Qed.

(** A dataset with a row that does not pass ends with status 1, by the
    return value of [main] or by an unhandled exception. *)
Lemma failing_row_status (fix_ inplace : bool) (item : value)
      (data : list value) (path : Path) :
  In item data ->
  (forall i item', snd (main_row fix_ i item) <> Ok (item', true)) ->
  snd (main (Json (VList data)) path fix_ inplace) <> Ok 0
  /\ snd (script (Json (VList data)) path fix_ inplace) = 1.
Proof.
  intros Hin Hrow. rewrite script_status, main_result.
  pose proof (loop_fails fix_ item data Hin Hrow 1 [] true) as H.
  destruct (snd (loop fix_ 1 data [] true)) as [[cleaned []]|].
  - exfalso. exact (H cleaned eq_refl).
  - destruct (snd (write_output path fix_ inplace cleaned));
      (split; [discriminate | reflexivity]).
  - split; [discriminate | reflexivity].
Qed.

Lemma loop_valid (ds : list dict) (i : nat) (cleaned : list value) (ok : bool) :
  Forall (fun d => valid_record d = true) ds ->
  loop false i (VDict <$> ds) cleaned ok = ([], Ok (cleaned ++ (VDict <$> ds), ok)).
Proof.
  intros H. revert i cleaned. induction H as [|d ds Hd Hds IH]; intros i cleaned.
  - simpl. rewrite app_nil_r. reflexivity.
  - simpl. rewrite (main_row_valid i d Hd), bind_Ok, IH. simpl.
    rewrite <- app_assoc. reflexivity.
Qed.

(** ** C1 *)

(** C1.  A record with every required field, [lat] and [lon] coercible
    to numbers within [[-90, 90]] and [[-180, 180]], [arrival <= departure]
    whenever both parse, no placeholder in [link], and a [link] that
    contains ["http"] or has at most 200 characters, passes its row in
    non-fix mode without any diagnostic; a dataset of such records makes
    [main] return 0 and the process exit with status 0. *)
Theorem valid_dataset_passes (ds : list dict) (path : Path) (inplace : bool) :
  Forall (fun d => valid_record d = true) ds ->
  Forall (fun d => forall i, main_row false i (VDict d) = ([], Ok (VDict d, true))) ds
  /\ main (Json (VList (VDict <$> ds))) path false inplace
     = ([Stdout ValidationPassed], Ok 0)
  /\ script (Json (VList (VDict <$> ds))) path false inplace
     = ([Stdout ValidationPassed], 0).
Proof.
  intros H. split; [|split].
  - eapply Forall_impl; [exact H|]. intros d Hd i. apply main_row_valid, Hd.
  - unfold main. rewrite (loop_valid ds 1 [] true H). reflexivity.
  - unfold script, main. rewrite (loop_valid ds 1 [] true H). reflexivity.
Qed.

Lemma bind_ret {A B} (a : A) (k : A -> M B) : bind (ret a) k = k a.
Proof. unfold bind, ret. destruct (k a); reflexivity. Qed.

Lemma bind_ext {A B} (m : M A) (k k' : A -> M B) :
  (forall a, k a = k' a) -> bind m k = bind m k'.
Proof. intros H. destruct m as [o [a|e]]; simpl; [rewrite H|]; reflexivity. Qed.

Lemma bind_assoc {A B C} (m : M A) (k : A -> M B) (h : B -> M C) :
  bind (bind m k) h = bind m (fun a => bind (k a) h).
Proof.
  destruct m as [o [a|e]]; [|reflexivity]. simpl.
  destruct (k a) as [o' [b|e]]; simpl; [|reflexivity].
  destruct (h b) as [o'' r]. rewrite app_assoc. reflexivity.
Qed.

Lemma loop_app (fix_ : bool) (pre post : list value) (i : nat)
      (cleaned : list value) (ok : bool) :
  loop fix_ i (pre ++ post) cleaned ok =
    bind (loop fix_ i pre cleaned ok)
         (fun r => loop fix_ (i + length pre) post (fst r) (snd r)).
Proof.
  revert i cleaned ok. induction pre as [|x pre IH]; intros i cleaned ok.
  - rewrite Nat.add_0_r.
    change (loop fix_ i [] cleaned ok) with (@ret (list value * bool) (cleaned, ok)).
    rewrite bind_ret. reflexivity.
  - cbn [loop app length]. rewrite bind_assoc. apply bind_ext. intros [item row_ok].
    rewrite IH. rewrite Nat.add_succ_r. reflexivity.
Qed.

Lemma main_row_completes (fix_ : bool) (i : nat) (item : value) :
  row_completes item = true ->
  exists o item' row_ok, main_row fix_ i item = (o, Ok (item', row_ok)).
Proof.
  destruct item as [| | | | | |d]; try discriminate. simpl. intros H.
  pose proof (main_row_result fix_ i d) as Hr. rewrite H in Hr.
  destruct (main_row fix_ i (VDict d)) as [o r]. simpl in Hr. subst r. eauto.
Qed.

Lemma loop_completes (fix_ : bool) (data : list value) :
  Forall (fun item => row_completes item = true) data ->
  forall i cleaned ok,
    exists o cleaned' ok', loop fix_ i data cleaned ok = (o, Ok (cleaned', ok')).
Proof.
  induction 1 as [|item data Hitem Hdata IH]; intros i cleaned ok.
  - simpl. unfold ret. eauto.
  - simpl. destruct (main_row_completes fix_ i item Hitem) as (o & item' & r & ->).
    rewrite bind_Ok.
    destruct (IH (S i) (cleaned ++ [item']) (if r then ok else false))
      as (o' & cleaned' & ok' & ->). simpl. eauto.
Qed.

(** What the row at position [S (length pre)] prints is part of the
    output of the run, once the rows before it have run to their end. *)
Lemma row_output_in_main (fix_ inplace : bool) (pre post : list value)
      (item : value) (path : Path) (e : event) :
  Forall (fun item => row_completes item = true) pre ->
  In e (fst (main_row fix_ (S (length pre)) item)) ->
  In e (fst (main (Json (VList (pre ++ item :: post))) path fix_ inplace)).
Proof.
  intros Hpre He. unfold main. rewrite fst_bind. apply in_or_app; left.
  rewrite loop_app.
  destruct (loop_completes fix_ pre Hpre 1 [] true) as (o & cleaned & ok & ->).
  rewrite bind_Ok. apply in_or_app; right. simpl.
  rewrite fst_bind. apply in_or_app; left. exact He.
Qed.

(** ** C2 *)

Lemma check_dates_inverted (fix_ : bool) (i : nat) (d : dict) (row_ok : bool)
      (a b : datetime) :
  parse_date (dict_get d (py "arrival") (VStr [])) = Some a ->
  parse_date (dict_get d (py "departure") (VStr [])) = Some b ->
  dt_compare a b = Some Gt ->
  check_dates fix_ i d row_ok =
    if fix_ then
      ([Stdout (ArrivalAfterDeparture i (dict_get d (py "arrival") (VStr []))
                  (dict_get d (py "departure") (VStr [])));
        Stdout (SwappingDates i)],
       Ok (<[py "departure" := dict_get d (py "arrival") (VStr [])]>
             (<[py "arrival" := dict_get d (py "departure") (VStr [])]> d),
           row_ok))
    else
      ([Stdout (ArrivalAfterDeparture i (dict_get d (py "arrival") (VStr []))
                  (dict_get d (py "departure") (VStr [])))],
       Ok (d, false)).
Proof.
  intros Ha Hb Hc. unfold check_dates. rewrite Ha, Hb, Hc.
  destruct fix_; reflexivity.
Qed.

(** C2.  When [arrival] and [departure] both parse and
    [arrival > departure]: in non-fix mode the date check prints the
    ordering diagnostic and fails the row; in fix mode it prints the
    ordering and the swap diagnostics, exchanges the two strings in the
    record, so that the new [arrival] is before the new [departure], and
    leaves [row_ok] as it found it.  The row then returns the record with
    the exchanged strings (normalised as every string is), and passes
    exactly when the completeness and coordinate checks passed.  When one
    of the two does not parse, the check prints nothing and changes
    neither the record nor [row_ok]. *)
Theorem date_order_checked (i : nat) (d : dict) (row_ok : bool) :
  let arrival_raw := dict_get d (py "arrival") (VStr []) in
  let departure_raw := dict_get d (py "departure") (VStr []) in
  (forall a b : datetime,
     parse_date arrival_raw = Some a ->
     parse_date departure_raw = Some b ->
     dt_compare a b = Some Gt ->
     let d' := <[py "departure" := arrival_raw]>
                 (<[py "arrival" := departure_raw]> d) in
     check_dates false i d row_ok
       = ([Stdout (ArrivalAfterDeparture i arrival_raw departure_raw)],
          Ok (d, false))
     /\ check_dates true i d row_ok
        = ([Stdout (ArrivalAfterDeparture i arrival_raw departure_raw);
            Stdout (SwappingDates i)], Ok (d', row_ok))
     /\ d' !! py "arrival" = Some departure_raw
     /\ d' !! py "departure" = Some arrival_raw
     /\ (forall k, k <> py "arrival" -> k <> py "departure" -> d' !! k = d !! k)
     /\ parse_date (dict_get d' (py "arrival") (VStr [])) = Some b
     /\ parse_date (dict_get d' (py "departure") (VStr [])) = Some a
     /\ dt_compare b a = Some Lt
     /\ snd (main_row false i (VDict d)) = Ok (VDict d, false)
     /\ In (Stdout (ArrivalAfterDeparture i arrival_raw departure_raw))
           (fst (main_row false i (VDict d)))
     /\ snd (main_row true i (VDict d))
        = Ok (VDict (fix_record d), complete d && coordinates_pass d)
     /\ In (Stdout (ArrivalAfterDeparture i arrival_raw departure_raw))
           (fst (main_row true i (VDict d)))
     /\ In (Stdout (SwappingDates i)) (fst (main_row true i (VDict d)))
     /\ fix_record d !! py "arrival" = Some (clean_value departure_raw)
     /\ fix_record d !! py "departure" = Some (clean_value arrival_raw))
  /\ (forall fix_,
        parse_date arrival_raw = None \/ parse_date departure_raw = None ->
        check_dates fix_ i d row_ok = ([], Ok (d, row_ok))).
Proof.
  intros arrival_raw departure_raw. split.
  - intros a b Ha Hb Hc d'.
    assert (Hinv : dates_inverted d = true).
    { unfold dates_inverted. fold arrival_raw departure_raw.
      rewrite Ha, Hb, Hc. reflexivity. }
    assert (Hcmp : dates_comparable d = true).
    { unfold dates_comparable. fold arrival_raw departure_raw.
      rewrite Ha, Hb, Hc. reflexivity. }
    assert (Hswap : swap_dates d = d').
    { unfold swap_dates. rewrite Hinv. reflexivity. }
    assert (Harr : d' !! py "arrival" = Some departure_raw).
    { unfold d'. rewrite lookup_insert_ne by key_neq. apply lookup_insert_eq. }
    assert (Hdep : d' !! py "departure" = Some arrival_raw).
    { unfold d'. apply lookup_insert_eq. }
    assert (Hout : forall fix_,
      In (Stdout (ArrivalAfterDeparture i arrival_raw departure_raw))
         (fst (main_row fix_ i (VDict d)))
      /\ (fix_ = true -> In (Stdout (SwappingDates i))
                            (fst (main_row fix_ i (VDict d))))).
    { intros fix_. rewrite main_row_output.
      rewrite (check_dates_inverted fix_ i d _ a b Ha Hb Hc).
      split.
      - apply in_or_app; right. apply in_or_app; right. apply in_or_app; left.
        destruct fix_; left; reflexivity.
      - intros ->. apply in_or_app; right. apply in_or_app; right.
        apply in_or_app; left. right; left; reflexivity. }
    repeat split.
    + apply (check_dates_inverted false i d row_ok a b Ha Hb Hc).
    + apply (check_dates_inverted true i d row_ok a b Ha Hb Hc).
    + exact Harr.
    + exact Hdep.
    + intros k Hka Hkd. unfold d'. rewrite !lookup_insert_ne by congruence.
      reflexivity.
    + unfold dict_get. rewrite Harr. exact Hb.
    + unfold dict_get. rewrite Hdep. exact Ha.
    + rewrite dt_compare_antisym, Hc. reflexivity.
    + rewrite main_row_result, Hcmp. unfold row_record, row_passes.
      rewrite Hinv. simpl. rewrite andb_false_r. reflexivity.
    + apply Hout.
    + rewrite main_row_result, Hcmp. unfold row_record, row_passes.
      simpl. rewrite andb_true_r. reflexivity.
    + apply Hout.
    + apply Hout. reflexivity.
    + unfold fix_record, clean_record. rewrite lookup_fmap, clear_link_other by key_neq.
      rewrite Hswap, Harr. reflexivity.
    + unfold fix_record, clean_record. rewrite lookup_fmap, clear_link_other by key_neq.
      rewrite Hswap, Hdep. reflexivity.
  - intros fix_ H. unfold check_dates. fold arrival_raw departure_raw.
    destruct H as [-> | ->]; [reflexivity|].
    destruct (parse_date arrival_raw); reflexivity.
Qed.

(** ** C3 *)

Lemma absent_None (d : dict) (f : pstr) : absent d f = true <-> d !! f = None.
Proof. unfold absent. destruct (d !! f); split; congruence. Qed.

Lemma row_passes_complete (fix_ : bool) (d : dict) :
  complete d = false -> row_passes fix_ d = false.
Proof. intros H. unfold row_passes. rewrite H. reflexivity. Qed.

(** C3.  For a record that lacks at least one required field, the
    completeness check prints one missing-fields diagnostic, which lists
    the required fields that are not keys of the record and no others
    (in the order of [REQUIRED_FIELDS]), and fails the row: the
    diagnostic is the first line of the row, the row does not pass, and
    a run over any list that holds the record ends with status 1.  The
    diagnostic carries the position of the record in the list. *)
Theorem missing_fields_reported (fix_ : bool) (i : nat) (d : dict) :
  complete d = false ->
  let missing := List.filter (absent d) REQUIRED_FIELDS in
  (forall f, In f missing <-> In f REQUIRED_FIELDS /\ d !! f = None)
  /\ check_missing i (VDict d) = ([Stdout (MissingFields i missing)], Ok false)
  /\ (exists o, fst (main_row fix_ i (VDict d))
                = Stdout (MissingFields i missing) :: o)
  /\ (forall item, snd (main_row fix_ i (VDict d)) <> Ok (item, true))
  /\ (forall data path inplace,
        In (VDict d) data ->
        snd (main (Json (VList data)) path fix_ inplace) <> Ok 0
        /\ snd (script (Json (VList data)) path fix_ inplace) = 1)
  /\ (forall pre post path inplace,
        Forall (fun item => row_completes item = true) pre ->
        In (Stdout (MissingFields (S (length pre)) missing))
           (fst (main (Json (VList (pre ++ VDict d :: post))) path fix_ inplace))).
Proof.
  intros Hc missing.
  assert (Hm : forall j, check_missing j (VDict d)
                         = ([Stdout (MissingFields j missing)], Ok false)).
  { intros j. rewrite check_missing_dict. fold missing.
    destruct missing as [|f fs] eqn:E; [|reflexivity].
    rewrite (filter_absent_nil d E) in Hc. discriminate. }
  assert (Hfirst : forall j, exists o,
            fst (main_row fix_ j (VDict d)) = Stdout (MissingFields j missing) :: o).
  { intros j. rewrite main_row_output, Hm. simpl. eauto. }
  assert (Hfail : forall j item, snd (main_row fix_ j (VDict d)) <> Ok (item, true)).
  { intros j. apply main_row_fails, row_passes_complete, Hc. }
  split; [|split; [|split; [|split; [|split]]]].
  - intros f. unfold missing. rewrite filter_In, absent_None. reflexivity.
  - apply Hm.
  - apply Hfirst.
  - apply Hfail.
  - intros data path inplace Hin.
    apply (failing_row_status fix_ inplace (VDict d) data path Hin Hfail).
  - intros pre post path inplace Hpre. apply row_output_in_main; [exact Hpre|].
    destruct (Hfirst (S (length pre))) as [o ->]. left; reflexivity.
Qed.

(** ** C4 *)

Lemma row_passes_coordinates (fix_ : bool) (d : dict) :
  coordinates_pass d = false -> row_passes fix_ d = false.
Proof.
  intros H. unfold row_passes. rewrite H, andb_false_r. reflexivity.
Qed.

(** C4.  When [lat] and [lon] both coerce to numbers, the coordinate
    check prints an out-of-range diagnostic for a latitude outside
    [[-90, 90]], another for a longitude outside [[-180, 180]], each
    whatever the other coordinate is, and fails the row when it printed
    one; it prints nothing else.  This holds for every record, whatever
    its other fields: the diagnostics are in the output of the row, the
    row does not pass, and a run over a list that holds the record ends
    with status 1. *)
Theorem coordinates_range_checked (fix_ : bool) (i : nat) (d : dict)
        (row_ok : bool) (lat lon : spec_float) :
  float (dict_get d (py "lat") (VInt 0)) = Ok lat ->
  float (dict_get d (py "lon") (VInt 0)) = Ok lon ->
  check_latlon i d row_ok
    = ((if Float.between (-90) 90 lat then []
        else [Stdout (LatOutOfRange i lat)])
       ++ (if Float.between (-180) 180 lon then []
           else [Stdout (LonOutOfRange i lon)]),
       Ok (row_ok && Float.between (-90) 90 lat && Float.between (-180) 180 lon))
  /\ (Float.between (-90) 90 lat = false ->
      In (Stdout (LatOutOfRange i lat)) (fst (main_row fix_ i (VDict d))))
  /\ (Float.between (-180) 180 lon = false ->
      In (Stdout (LonOutOfRange i lon)) (fst (main_row fix_ i (VDict d))))
  /\ (Float.between (-90) 90 lat && Float.between (-180) 180 lon = false ->
      (forall item, snd (main_row fix_ i (VDict d)) <> Ok (item, true))
      /\ (forall data path inplace,
            In (VDict d) data ->
            snd (main (Json (VList data)) path fix_ inplace) <> Ok 0
            /\ snd (script (Json (VList data)) path fix_ inplace) = 1)).
Proof.
  intros Hlat Hlon.
  assert (Hblock : forall r, check_latlon i d r
    = ((if Float.between (-90) 90 lat then []
        else [Stdout (LatOutOfRange i lat)])
       ++ (if Float.between (-180) 180 lon then []
           else [Stdout (LonOutOfRange i lon)]),
       Ok (r && Float.between (-90) 90 lat && Float.between (-180) 180 lon))).
  { intros r. unfold check_latlon. rewrite Hlat, Hlon.
    destruct (Float.between (-90) 90 lat), (Float.between (-180) 180 lon), r;
      reflexivity. }
  split; [apply Hblock|]. split; [|split].
  - intros H. rewrite main_row_output, Hblock, H.
    apply in_or_app; right. apply in_or_app; left. left; reflexivity.
  - intros H. rewrite main_row_output, Hblock, H.
    apply in_or_app; right. apply in_or_app; left.
    apply in_or_app; right. left; reflexivity.
  - intros H.
    assert (Hfail : forall j item, snd (main_row fix_ j (VDict d)) <> Ok (item, true)).
    { intros j. apply main_row_fails, row_passes_coordinates.
      unfold coordinates_pass. rewrite Hlat, Hlon. exact H. }
    split; [apply Hfail|]. intros data path inplace Hin.
    apply (failing_row_status fix_ inplace (VDict d) data path Hin Hfail).
Qed.

(** ** C5 *)

Lemma link_placeholder_swap (d : dict) :
  link_placeholder (swap_dates d) = link_placeholder d.
Proof. unfold link_placeholder. rewrite swap_dates_link. reflexivity. Qed.

Lemma link_suspicious_swap (d : dict) :
  link_suspicious (swap_dates d) = link_suspicious d.
Proof. unfold link_suspicious. rewrite swap_dates_link. reflexivity. Qed.

(** The lines of the link checks in the output of a row. *)
Lemma main_row_link_output (fix_ : bool) (i : nat) (d : dict) (e : event) :
  dates_comparable d = true ->
  In e ((if link_placeholder d then [Stdout (PlaceholderInLink i)] else [])
        ++ (if link_suspicious d then [Stdout (SuspiciousLink i)] else [])) ->
  In e (fst (main_row fix_ i (VDict d))).
Proof.
  intros Hcmp He. rewrite main_row_output, Hcmp, check_link_output.
  do 3 (apply in_or_app; right).
  assert (Hp : link_placeholder (if fix_ then swap_dates d else d)
               = link_placeholder d).
  { destruct fix_; [apply link_placeholder_swap | reflexivity]. }
  assert (Hs : link_suspicious (if fix_ then swap_dates d else d)
               = link_suspicious d).
  { destruct fix_; [apply link_suspicious_swap | reflexivity]. }
  rewrite Hp, Hs. apply in_app_or in He. apply in_or_app.
  destruct He as [He|He]; [left | right; exact He].
  destruct (link_placeholder d); [|destruct He].
  destruct He as [<-|[]]. left; reflexivity.
Qed.

(** C5.  For a record whose [link] is a string that contains the
    placeholder text, or that has more than 200 characters and no
    ["http"]: in non-fix mode the link checks print their diagnostic and
    fail the row; in fix mode they set [link] to the empty string and
    leave [row_ok] as they found it.  When the dates of the record
    compare, so that the row reaches the link checks, the diagnostic is
    in the output of the row; the row fails in non-fix mode; in fix mode
    it returns a record whose [link] is empty and passes exactly when the
    completeness and coordinate checks passed. *)
Theorem flagged_link_checked (i : nat) (d : dict) (row_ok : bool) (s : pstr) :
  d !! py "link" = Some (VStr s) ->
  Str.contains (py "User to research") s = true
  \/ (Str.contains (py "http") s = false /\ (200 < length s)%nat) ->
  snd (check_link false i d row_ok) = Ok (d, false)
  /\ snd (check_link true i d row_ok) = Ok (<[py "link" := VStr []]> d, row_ok)
  /\ (forall fix_,
        Str.contains (py "User to research") s = true ->
        In (Stdout (PlaceholderInLink i)) (fst (check_link fix_ i d row_ok)))
  /\ (forall fix_,
        Str.contains (py "http") s = false /\ (200 < length s)%nat ->
        In (Stdout (SuspiciousLink i)) (fst (check_link fix_ i d row_ok)))
  /\ (dates_comparable d = true ->
      snd (main_row false i (VDict d)) = Ok (VDict d, false)
      /\ snd (main_row true i (VDict d))
         = Ok (VDict (fix_record d), complete d && coordinates_pass d)
      /\ fix_record d !! py "link" = Some (VStr [])
      /\ (forall fix_,
            Str.contains (py "User to research") s = true ->
            In (Stdout (PlaceholderInLink i)) (fst (main_row fix_ i (VDict d))))
      /\ (forall fix_,
            Str.contains (py "http") s = false /\ (200 < length s)%nat ->
            In (Stdout (SuspiciousLink i)) (fst (main_row fix_ i (VDict d))))).
Proof.
  intros Hlink Hflag.
  assert (Hp : link_placeholder d = Str.contains (py "User to research") s).
  { unfold link_placeholder. rewrite Hlink. reflexivity. }
  assert (Hs : link_suspicious d
               = negb (Str.contains (py "http") s) && (200 <? length s)%nat).
  { unfold link_suspicious. rewrite Hlink. reflexivity. }
  assert (Hlong : Str.contains (py "http") s = false /\ (200 < length s)%nat ->
                  link_suspicious d = true).
  { intros [Hh Hl]. rewrite Hs, Hh. apply Nat.ltb_lt in Hl. rewrite Hl.
    reflexivity. }
  assert (Hany : link_placeholder d || link_suspicious d = true).
  { destruct Hflag as [H|H].
    - rewrite Hp, H. reflexivity.
    - rewrite (Hlong H). apply orb_true_r. }
  split; [|split; [|split; [|split]]].
  - rewrite check_link_result, Hany. simpl. rewrite andb_false_r. reflexivity.
  - rewrite check_link_result. unfold clear_link. rewrite Hany. simpl.
    rewrite andb_true_r. reflexivity.
  - intros fix_ H. rewrite check_link_output, Hp, H. left; reflexivity.
  - intros fix_ H. rewrite check_link_output, (Hlong H).
    apply in_or_app; right. left; reflexivity.
  - intros Hcmp. split; [|split; [|split; [|split]]].
    + rewrite main_row_result, Hcmp. unfold row_record, row_passes.
      rewrite Hany. simpl. rewrite !andb_false_r. reflexivity.
    + rewrite main_row_result, Hcmp. unfold row_record, row_passes. simpl.
      rewrite andb_true_r. reflexivity.
    + unfold fix_record, clean_record, clear_link.
      rewrite link_placeholder_swap, link_suspicious_swap, Hany.
      rewrite lookup_fmap, lookup_insert_eq. reflexivity.
    + intros fix_ H. apply main_row_link_output; [exact Hcmp|].
      rewrite Hp, H. left; reflexivity.
    + intros fix_ H. apply main_row_link_output; [exact Hcmp|].
      rewrite (Hlong H). apply in_or_app; right. left; reflexivity.
Qed.

(** ** C6 *)

(** C6.  When there is no file at the path, when its text is not JSON,
    or when the JSON value is not a list, the run consists of the report
    of that error alone (the ["file not found"] line, the traceback of
    the [JSONDecodeError] that nothing handles, the ["not a list"] line),
    and the process ends with status 1: no row is processed, nothing is
    written. *)
Theorem input_errors_abort (path : Path) (fix_ inplace : bool) :
  script NoFile path fix_ inplace = ([Stdout (ErrFileNotFound path)], 1)
  /\ main NoFile path fix_ inplace = ([Stdout (ErrFileNotFound path)], Ok 1)
  /\ script Malformed path fix_ inplace = ([Traceback JSONDecodeError], 1)
  /\ main Malformed path fix_ inplace = ([], Raise JSONDecodeError)
  /\ (forall v : value,
        (forall data, v <> VList data) ->
        script (Json v) path fix_ inplace = ([Stdout ErrNotList], 1)
        /\ main (Json v) path fix_ inplace = ([Stdout ErrNotList], Ok 1)).
Proof.
  repeat split; try reflexivity;
    destruct v; try reflexivity; exfalso; eapply H; reflexivity.
Qed.

(** ** C8 *)

Lemma float_zero : float (VInt 0) = Ok (S754_zero false).
Proof. reflexivity. Qed.

Lemma zero_within_lat : Float.between (-90) 90 (S754_zero false) = true.
Proof. vm_compute. reflexivity. Qed.

Lemma zero_within_lon : Float.between (-180) 180 (S754_zero false) = true.
Proof. vm_compute. reflexivity. Qed.

Lemma complete_lookup (d : dict) (f : pstr) :
  complete d = true -> In f REQUIRED_FIELDS -> d !! f <> None.
Proof.
  unfold complete. rewrite forallb_forall. intros H Hf Hn.
  specialize (H f Hf). unfold absent in H. rewrite Hn in H. discriminate.
Qed.

Lemma lat_required : In (py "lat") REQUIRED_FIELDS.
Proof. unfold REQUIRED_FIELDS. simpl. auto 12. Qed.

Lemma lon_required : In (py "lon") REQUIRED_FIELDS.
Proof. unfold REQUIRED_FIELDS. simpl. auto 12. Qed.

Lemma check_missing_incomplete (i : nat) (d : dict) :
  complete d = false ->
  check_missing i (VDict d)
  = ([Stdout (MissingFields i (List.filter (absent d) REQUIRED_FIELDS))], Ok false).
Proof.
  intros Hc. rewrite check_missing_dict.
  destruct (List.filter (absent d) REQUIRED_FIELDS) as [|f fs] eqn:E; [|reflexivity].
  rewrite (filter_absent_nil d E) in Hc. discriminate.
Qed.

(** The coordinate is absent, or present and within its range. *)
Lemma coordinate_default_within (lo hi : Z) (d : dict) (k : pstr) :
  Float.between lo hi (S754_zero false) = true ->
  d !! k = None \/ coordinate_within lo hi d k = true ->
  exists x, float (dict_get d k (VInt 0)) = Ok x /\ Float.between lo hi x = true.
Proof.
  intros Hz [Hn|Hw].
  - exists (S754_zero false). unfold dict_get. rewrite Hn. split; [reflexivity|exact Hz].
  - apply coordinate_within_get, Hw.
Qed.

(** C8 (amended).  In a record without [lat] (without [lon]) the
    coordinate check coerces the default [0], which is within the range:
    the absent coordinate never gets an out-of-range diagnostic of its
    own.  When the other coordinate is absent too, or coerces to a number
    within its range, the check prints nothing and leaves [row_ok] as it
    found it.  The completeness check names the absent coordinate in its
    diagnostic and fails the row, which does not pass. *)
Theorem absent_coordinate_defaults (i : nat) (d : dict) (row_ok : bool) :
  d !! py "lat" = None \/ d !! py "lon" = None ->
  (d !! py "lat" = None ->
   float (dict_get d (py "lat") (VInt 0)) = Ok (S754_zero false)
   /\ forall x, ~ In (Stdout (LatOutOfRange i x)) (fst (check_latlon i d row_ok)))
  /\ (d !! py "lon" = None ->
      float (dict_get d (py "lon") (VInt 0)) = Ok (S754_zero false)
      /\ forall x, ~ In (Stdout (LonOutOfRange i x)) (fst (check_latlon i d row_ok)))
  /\ Float.between (-90) 90 (S754_zero false) = true
  /\ Float.between (-180) 180 (S754_zero false) = true
  /\ ((d !! py "lat" = None \/ coordinate_within (-90) 90 d (py "lat") = true) ->
      (d !! py "lon" = None \/ coordinate_within (-180) 180 d (py "lon") = true) ->
      check_latlon i d row_ok = ([], Ok row_ok))
  /\ check_missing i (VDict d)
     = ([Stdout (MissingFields i (List.filter (absent d) REQUIRED_FIELDS))],
        Ok false)
  /\ (d !! py "lat" = None ->
      In (py "lat") (List.filter (absent d) REQUIRED_FIELDS))
  /\ (d !! py "lon" = None ->
      In (py "lon") (List.filter (absent d) REQUIRED_FIELDS))
  /\ (forall fix_ item, snd (main_row fix_ i (VDict d)) <> Ok (item, true)).
Proof.
  intros Habs.
  assert (Hc : complete d = false).
  { destruct (complete d) eqn:Hc; [|reflexivity]. exfalso.
    destruct Habs as [H|H].
    - exact (complete_lookup d _ Hc lat_required H).
    - exact (complete_lookup d _ Hc lon_required H). }
  split; [|split; [|split; [|split; [|split; [|split; [|split; [|split]]]]]]].
  - intros Hlat.
    assert (Hf : float (dict_get d (py "lat") (VInt 0)) = Ok (S754_zero false)).
    { unfold dict_get. rewrite Hlat. reflexivity. }
    split; [exact Hf|]. intros x. unfold check_latlon. rewrite Hf.
    destruct (float (dict_get d (py "lon") (VInt 0))) as [lon|].
    + rewrite zero_within_lat.
      destruct (Float.between (-180) 180 lon); simpl; intuition discriminate.
    + simpl. intuition discriminate.
  - intros Hlon.
    assert (Hf : float (dict_get d (py "lon") (VInt 0)) = Ok (S754_zero false)).
    { unfold dict_get. rewrite Hlon. reflexivity. }
    split; [exact Hf|]. intros x. unfold check_latlon. rewrite Hf.
    destruct (float (dict_get d (py "lat") (VInt 0))) as [lat|].
    + rewrite zero_within_lon.
      destruct (Float.between (-90) 90 lat); simpl; intuition discriminate.
    + simpl. intuition discriminate.
  - exact zero_within_lat.
  - exact zero_within_lon.
  - intros Hlat Hlon.
    destruct (coordinate_default_within _ _ d _ zero_within_lat Hlat)
      as (lat & Hflat & Hrlat).
    destruct (coordinate_default_within _ _ d _ zero_within_lon Hlon)
      as (lon & Hflon & Hrlon).
    unfold check_latlon. rewrite Hflat, Hflon, Hrlat, Hrlon. reflexivity.
  - apply check_missing_incomplete, Hc.
  - intros Hlat. apply filter_In. split; [exact lat_required|].
    apply absent_None, Hlat.
  - intros Hlon. apply filter_In. split; [exact lon_required|].
    apply absent_None, Hlon.
  - intros fix_. apply main_row_fails, row_passes_complete, Hc.
Qed.

(** ** Rows only print *)

Lemma writes_app (o o' : list event) : writes (o ++ o') = writes o ++ writes o'.
Proof. unfold writes. apply List.filter_app. Qed.

Lemma writes_bind {A B} (m : M A) (k : A -> M B) :
  writes (fst m) = [] ->
  (forall a, writes (fst (k a)) = []) ->
  writes (fst (bind m k)) = [].
Proof.
  intros Hm Hk. rewrite fst_bind, writes_app, Hm.
  destruct (snd m); [apply Hk | reflexivity].
Qed.

Lemma check_missing_writes (i : nat) (item : value) :
  writes (fst (check_missing i item)) = [].
Proof.
  unfold check_missing. apply writes_bind; [reflexivity|].
  intros [|f fs]; reflexivity.
Qed.

Lemma check_latlon_writes (i : nat) (d : dict) (row_ok : bool) :
  writes (fst (check_latlon i d row_ok)) = [].
Proof.
  unfold check_latlon.
  destruct (float (dict_get d (py "lat") (VInt 0))) as [lat|]; [|reflexivity].
  destruct (float (dict_get d (py "lon") (VInt 0))) as [lon|]; [|reflexivity].
  destruct (Float.between (-90) 90 lat), (Float.between (-180) 180 lon);
    reflexivity.
Qed.

Lemma check_dates_writes (fix_ : bool) (i : nat) (d : dict) (row_ok : bool) :
  writes (fst (check_dates fix_ i d row_ok)) = [].
Proof.
  unfold check_dates.
  destruct (parse_date (dict_get d (py "arrival") (VStr []))) as [a|];
    [|reflexivity].
  destruct (parse_date (dict_get d (py "departure") (VStr []))) as [b|];
    [|reflexivity].
  destruct (dt_compare a b) as [[]|]; destruct fix_; reflexivity.
Qed.

Lemma check_link_writes (fix_ : bool) (i : nat) (d : dict) (row_ok : bool) :
  writes (fst (check_link fix_ i d row_ok)) = [].
Proof.
  rewrite check_link_output.
  destruct (link_placeholder d), (link_suspicious d), fix_; reflexivity.
Qed.

Lemma main_row_writes (fix_ : bool) (i : nat) (item : value) :
  writes (fst (main_row fix_ i item)) = [].
Proof.
  unfold main_row. apply writes_bind; [apply check_missing_writes|].
  intros row_ok. destruct item; try reflexivity.
  apply writes_bind; [apply check_latlon_writes|]. intros r.
  apply writes_bind; [apply check_dates_writes|]. intros [d' r'].
  apply writes_bind; [apply check_link_writes|]. intros [d'' r'']. reflexivity.
Qed.

Lemma loop_writes (fix_ : bool) (data : list value) (i : nat)
      (cleaned : list value) (ok : bool) :
  writes (fst (loop fix_ i data cleaned ok)) = [].
Proof.
  revert i cleaned ok. induction data as [|item data IH]; intros i cleaned ok.
  - reflexivity.
  - cbn [loop]. apply writes_bind; [apply main_row_writes|].
    intros [item' r]. apply IH.
Qed.

(** What [main] writes is what [write_output] writes. *)
Lemma main_writes (data : list value) (path : Path) (fix_ inplace : bool) :
  writes (fst (main (Json (VList data)) path fix_ inplace)) =
    match snd (loop fix_ 1 data [] true) with
    | Ok (cleaned, _) => writes (fst (write_output path fix_ inplace cleaned))
    | Raise _ => []
    end.
Proof.
  unfold main. rewrite fst_bind, writes_app, loop_writes. simpl.
  destruct (snd (loop fix_ 1 data [] true)) as [[cleaned ok]|]; [|reflexivity].
  rewrite fst_bind, writes_app.
  destruct (snd (write_output path fix_ inplace cleaned));
    [destruct ok|]; simpl; rewrite app_nil_r; reflexivity.
Qed.

Lemma script_writes (f : file) (path : Path) (fix_ inplace : bool) :
  writes (fst (script f path fix_ inplace))
  = writes (fst (main f path fix_ inplace)).
Proof.
  unfold script. destruct (main f path fix_ inplace) as [o [status|e]];
    [reflexivity|]. simpl. rewrite writes_app. simpl. apply app_nil_r.
Qed.

(** ** Rows of records whose dates compare *)

Lemma loop_result_dicts (fix_ : bool) (ds : list dict) :
  Forall (fun d => dates_comparable d = true) ds ->
  forall i cleaned ok,
    snd (loop fix_ i (VDict <$> ds) cleaned ok)
    = Ok (cleaned ++ (VDict <$> (row_record fix_ <$> ds)),
          ok && forallb (row_passes fix_) ds).
Proof.
  induction 1 as [|d ds Hd Hds IH]; intros i cleaned ok.
  - simpl. rewrite app_nil_r, andb_true_r. reflexivity.
  - cbn [loop fmap list_fmap]. rewrite snd_bind, main_row_result, Hd, IH.
    rewrite <- app_assoc. simpl.
    destruct (row_passes fix_ d), ok; reflexivity.
Qed.

(** ** The output path *)

Lemma rfind_None (c : N) (s : pstr) : Str.rfind c s = None -> ~ In c s.
Proof.
  induction s as [|x s IH]; simpl; [tauto|].
  destruct (Str.rfind c s); [discriminate|].
  destruct (N.eqb_spec x c); [discriminate|]. intros _ [H|H]; [congruence|].
  exact (IH eq_refl H).
Qed.

Lemma rfind_Some (c : N) (s : pstr) (i : nat) :
  Str.rfind c s = Some i ->
  exists rest, drop i s = c :: rest /\ ~ In c rest.
Proof.
  revert i. induction s as [|x s IH]; simpl; [discriminate|]. intros i.
  destruct (Str.rfind c s) as [j|] eqn:E.
  - intros [= <-]. simpl. apply IH. reflexivity.
  - destruct (N.eqb_spec x c) as [->|]; [|discriminate]. intros [= <-].
    exists s. split; [reflexivity|]. apply rfind_None, E.
Qed.

Lemma stem_suffix (p : Path) : pathlib.stem p ++ pathlib.suffix p = name p.
Proof.
  unfold pathlib.stem, pathlib.suffix.
  destruct (Str.rfind pathlib.dot (name p)) as [i|]; [|apply app_nil_r].
  destruct ((0 <? i)%nat && (i <? length (name p) - 1)%nat);
    [apply take_drop | apply app_nil_r].
Qed.

(** The suffix is empty, or a dot followed by at least one character,
    none of them a dot. *)
Lemma suffix_shape (p : Path) :
  pathlib.suffix p = []
  \/ exists ext, pathlib.suffix p = pathlib.dot :: ext
                 /\ ext <> [] /\ ~ In pathlib.dot ext.
Proof.
  unfold pathlib.suffix.
  destruct (Str.rfind pathlib.dot (name p)) as [i|] eqn:E; [|left; reflexivity].
  destruct ((0 <? i)%nat && (i <? length (name p) - 1)%nat) eqn:Hi;
    [|left; reflexivity].
  right. destruct (rfind_Some _ _ _ E) as (rest & Hd & Hn).
  exists rest. split; [exact Hd|]. split; [|exact Hn].
  intros ->. apply andb_true_iff in Hi as [_ Hi]. apply Nat.ltb_lt in Hi.
  assert (Hl : length (drop i (name p)) = 1%nat) by (rewrite Hd; reflexivity).
  rewrite length_drop in Hl. lia.
Qed.

(** ** C10 *)

(** C10.  A non-fix run writes no file, whatever is at the path; a row
    that returns gives back the item it was given, so that the list the
    loop has built is the loaded list; and when every item is a record
    whose dates compare, the loop does return, with the loaded list. *)
Theorem nonfix_is_pure :
  (forall (f : file) (path : Path) (inplace : bool),
     writes (fst (main f path false inplace)) = []
     /\ writes (fst (script f path false inplace)) = [])
  /\ (forall (i : nat) (item : value),
        match snd (main_row false i item) with
        | Ok (item', _) => item' = item
        | Raise _ => True
        end)
  /\ (forall (data : list value) (i : nat) (cleaned : list value) (ok : bool),
        match snd (loop false i data cleaned ok) with
        | Ok (cleaned', _) => cleaned' = cleaned ++ data
        | Raise _ => True
        end)
  /\ (forall data : list value,
        Forall (fun item => row_completes item = true) data ->
        exists ok, snd (loop false 1 data [] true) = Ok (data, ok)).
Proof.
  assert (Hrow : forall (i : nat) (item : value),
            match snd (main_row false i item) with
            | Ok (item', _) => item' = item
            | Raise _ => True
            end).
  { intros i item. destruct item as [| | | | | |d];
      try (unfold main_row; rewrite snd_bind;
           destruct (snd (check_missing i _)); exact I).
    rewrite main_row_result. destruct (dates_comparable d); [reflexivity|exact I]. }
  assert (Hloop : forall (data : list value) (i : nat) (cleaned : list value)
                         (ok : bool),
            match snd (loop false i data cleaned ok) with
            | Ok (cleaned', _) => cleaned' = cleaned ++ data
            | Raise _ => True
            end).
  { induction data as [|item data IH]; intros i cleaned ok.
    - simpl. rewrite app_nil_r. reflexivity.
    - cbn [loop]. rewrite snd_bind. specialize (Hrow i item).
      destruct (snd (main_row false i item)) as [[item' r]|]; [|exact I].
      subst item'. specialize (IH (S i) (cleaned ++ [item]) (if r then ok else false)).
      destruct (snd (loop false (S i) data _ _)) as [[cleaned' ok']|]; [|exact I].
      rewrite IH, <- app_assoc. reflexivity. }
  split; [|split; [exact Hrow|split; [exact Hloop|]]].
  - intros f path inplace.
    assert (H : writes (fst (main f path false inplace)) = []).
    { destruct f as [| | |v]; try reflexivity.
      destruct v; try reflexivity. rewrite main_writes.
      destruct (snd (loop false 1 l [] true)) as [[cleaned ok]|]; reflexivity. }
    split; [exact H|]. rewrite script_writes. exact H.
  - intros data Hdata.
    destruct (loop_completes false data Hdata 1 [] true) as (o & cleaned & ok & E).
    specialize (Hloop data 1%nat [] true). rewrite E in Hloop. simpl in Hloop.
    exists ok. rewrite E. simpl. rewrite Hloop. reflexivity.
Qed.

(** ** C7 *)




Lemma fmap_clean_idempotent (d : dict) :
  clean_record (clean_record d) = clean_record d.
Proof.
  unfold clean_record. apply map_eq. intros k. rewrite !lookup_fmap.
  destruct (d !! k); simpl; [|reflexivity].
  rewrite clean_value_idempotent. reflexivity.
Qed.








End Properties.

(** * Beyond the claims *)

Section Further.

Context {L : Library}.

Arguments py : simpl never.

(** ** [remove_emojis] and the normalisation of text *)

Lemma remove_emojis_filter (s : pstr) : remove_emojis s = List.filter bmp s.
Proof. reflexivity. Qed.

Lemma lstrip_split (s : pstr) :
  exists pre, s = pre ++ Str.lstrip s /\ Forall (fun c => Str.isspace c = true) pre.
Proof.
  induction s as [|c s (pre & Hs & Hpre)]; [exists []; split; [reflexivity|constructor]|].
  simpl. destruct (Str.isspace c) eqn:E.
  - exists (c :: pre). split; [simpl; f_equal; exact Hs | constructor; assumption].
  - exists []. split; [reflexivity | constructor].
Qed.

Lemma strip_split (s : pstr) :
  exists pre post,
    s = pre ++ Str.strip s ++ post
    /\ Forall (fun c => Str.isspace c = true) pre
    /\ Forall (fun c => Str.isspace c = true) post.
Proof.
  destruct (lstrip_split (rev s)) as (post & Hpost & Fpost).
  destruct (lstrip_split (Str.rstrip s)) as (pre & Hpre & Fpre).
  exists pre, (rev post). split; [|split; [exact Fpre | apply Forall_rev, Fpost]].
  unfold Str.strip. rewrite app_assoc, <- Hpre. unfold Str.rstrip.
  rewrite <- rev_app_distr, <- Hpost, rev_involutive. reflexivity.
Qed.

Lemma strip_trimmed (s : pstr) :
  starts_clean (Str.strip s) = true /\ starts_clean (rev (Str.strip s)) = true.
Proof.
  split; unfold Str.strip; [apply lstrip_starts_clean|].
  apply rev_lstrip_starts_clean. unfold Str.rstrip.
  rewrite rev_involutive. apply lstrip_starts_clean.
Qed.

Lemma strip_fixed (s : pstr) :
  starts_clean s = true -> starts_clean (rev s) = true -> Str.strip s = s.
Proof.
  intros Hs Hr. unfold Str.strip, Str.rstrip.
  rewrite (lstrip_fixed _ Hr), rev_involutive. apply lstrip_fixed, Hs.
Qed.

Lemma forallb_bmp (s : pstr) :
  forallb bmp s = true <-> Forall (fun c => bmp c = true) s.
Proof. rewrite forallb_forall, Forall_forall. setoid_rewrite list_elem_of_In. reflexivity. Qed.

Lemma clean_str_fixed (s : pstr) :
  clean_str s = true <-> Str.strip (remove_emojis s) = s.
Proof.
  unfold clean_str. split.
  - intros [[Hb Hs]%andb_true_iff Hr]%andb_true_iff.
    rewrite remove_emojis_fixed by (apply forallb_bmp, Hb).
    apply strip_fixed; assumption.
  - intros <-. destruct (strip_trimmed (remove_emojis s)) as [Hs Hr].
    rewrite Hs, Hr, !andb_true_r. apply forallb_bmp, strip_Forall.
    apply remove_emojis_Forall.
Qed.

Lemma filter_lstrip (s : pstr) :
  List.filter (fun c => negb (Str.isspace c)) (Str.lstrip s)
  = List.filter (fun c => negb (Str.isspace c)) s.
Proof.
  induction s as [|c s IH]; [reflexivity|]. simpl.
  destruct (Str.isspace c) eqn:E; simpl; [exact IH|]. rewrite E. reflexivity.
Qed.

Lemma filter_strip (s : pstr) :
  List.filter (fun c => negb (Str.isspace c)) (Str.strip s)
  = List.filter (fun c => negb (Str.isspace c)) s.
Proof.
  unfold Str.strip, Str.rstrip.
  rewrite filter_lstrip, List.filter_rev, filter_lstrip, List.filter_rev.
  apply rev_involutive.
Qed.

Lemma remove_emojis_sublist (s : pstr) : remove_emojis s `sublist_of` s.
Proof.
  rewrite remove_emojis_filter.
  induction s as [|c s IH]; simpl; [constructor|].
  destruct (bmp c); [apply sublist_skip | apply sublist_cons]; exact IH.
Qed.

(** X1.  [remove_emojis] deletes the code points of
    [U+10000 .. U+10FFFF] and nothing else: what it returns is the
    subsequence of the other code points of its argument.  It works
    through a concatenation piece by piece, returns a string without such
    code points unchanged, and applying it twice is applying it once. *)
Theorem remove_emojis_keeps_the_rest :
  (forall s c, In c (remove_emojis s)
               <-> In c s /\ ~ (65536 <= c <= 1114111)%N)
  /\ (forall s, remove_emojis s `sublist_of` s)
  /\ (forall s t, remove_emojis (s ++ t) = remove_emojis s ++ remove_emojis t)
  /\ (forall s, remove_emojis s = s
                <-> forall c, In c s -> ~ (65536 <= c <= 1114111)%N)
  /\ (forall s, remove_emojis (remove_emojis s) = remove_emojis s).
Proof.
  assert (Hb : forall c, bmp c = true <-> ~ (65536 <= c <= 1114111)%N).
  { intros c. unfold bmp. rewrite negb_true_iff, andb_false_iff.
    rewrite !N.leb_gt. lia. }
  split; [|split; [|split; [|split]]].
  - intros s c. rewrite remove_emojis_filter, filter_In, Hb. reflexivity.
  - apply remove_emojis_sublist.
  - intros s t. apply List.filter_app.
  - intros s. split.
    + intros H c Hc. apply Hb. rewrite <- H in Hc.
      rewrite remove_emojis_filter in Hc. apply filter_In in Hc. apply Hc.
    + intros H. apply remove_emojis_fixed, Forall_forall.
      intros c Hc. apply (Hb c), H, list_elem_of_In, Hc.
  - intros s. apply remove_emojis_fixed, remove_emojis_Forall.
Qed.

(** X2.  Text normalisation, [remove_emojis(v).strip()], only deletes:
    the string it is given is white space, then the result, then white
    space, once the code points of [U+10000 .. U+10FFFF] are taken out.
    Every other code point that is no white space survives, in its
    order.  The result is clean: it has no code point of that range and
    no white space at either end; and a clean string is returned as it
    is. *)
Theorem clean_value_only_deletes (s : pstr) :
  (exists pre post,
     remove_emojis s = pre ++ Str.strip (remove_emojis s) ++ post
     /\ Forall (fun c => Str.isspace c = true) pre
     /\ Forall (fun c => Str.isspace c = true) post)
  /\ Str.strip (remove_emojis s) `sublist_of` s
  /\ List.filter (fun c => negb (Str.isspace c)) (Str.strip (remove_emojis s))
     = List.filter (fun c => negb (Str.isspace c)) (List.filter bmp s)
  /\ clean_str (Str.strip (remove_emojis s)) = true
  /\ (clean_str s = true <-> clean_value (VStr s) = VStr s).
Proof.
  split; [apply strip_split|]. split; [|split; [|split]].
  - destruct (strip_split (remove_emojis s)) as (pre & post & H & _).
    transitivity (remove_emojis s).
    + rewrite H at 2. apply sublist_inserts_l, sublist_inserts_r. reflexivity.
    + apply remove_emojis_sublist.
  - rewrite filter_strip. reflexivity.
  - apply clean_str_fixed, clean_str_idempotent.
  - rewrite clean_str_fixed. simpl. split; [intros ->; reflexivity|].
    intros [= H]. exact H.
Qed.

(** ** Normalisation of a record *)

(** X3.  The normalisation loop of fix mode keeps the keys of the
    record and every value that is no string, and leaves every string
    clean; it changes nothing exactly when every string of the record is
    clean already.  Without fix mode it is not run. *)
Theorem normalize_makes_clean (d : dict) :
  normalize false d = d
  /\ dom (normalize true d) = dom d
  /\ (forall k v, d !! k = Some v -> (forall s, v <> VStr s) ->
                  normalize true d !! k = Some v)
  /\ (forall k s, d !! k = Some (VStr s) ->
                  normalize true d !! k = Some (VStr (Str.strip (remove_emojis s))))
  /\ (forall k s, normalize true d !! k = Some (VStr s) -> clean_str s = true)
  /\ (normalize true d = d
      <-> forall k s, d !! k = Some (VStr s) -> clean_str s = true).
Proof.
  assert (Hclean : forall k s, normalize true d !! k = Some (VStr s) ->
                               clean_str s = true).
  { intros k s. rewrite normalize_lookup.
    destruct (d !! k) as [v|]; [|discriminate]. simpl.
    destruct v; try discriminate. simpl. intros [= <-].
    apply clean_str_fixed, clean_str_idempotent. }
  split; [reflexivity|]. split; [|split; [|split; [|split; [exact Hclean|]]]].
  - rewrite normalize_fmap. apply dom_fmap_L.
  - intros k v Hk Hv. rewrite normalize_lookup, Hk. simpl.
    destruct v; try reflexivity. exfalso. exact (Hv s eq_refl).
  - intros k s Hk. rewrite normalize_lookup, Hk. reflexivity.
  - split.
    + intros H k s Hk. apply (Hclean k). rewrite H. exact Hk.
    + intros H. apply map_eq. intros k. rewrite normalize_lookup.
      destruct (d !! k) as [v|] eqn:Hk; [|reflexivity]. simpl. f_equal.
      destruct v; try reflexivity. simpl. f_equal.
      apply clean_str_fixed, (H k), Hk.
Qed.

(** ** The repairs of fix mode *)

Lemma dates_ordered_alt (d : dict) :
  dates_ordered d = dates_comparable d && negb (dates_inverted d).
Proof.
  unfold dates_ordered, dates_comparable, dates_inverted.
  destruct (parse_date _); [|reflexivity].
  destruct (parse_date _); [|reflexivity].
  destruct (dt_compare _ _) as [[]|]; reflexivity.
Qed.

Lemma link_clean_alt (d : dict) :
  link_clean d = negb (link_placeholder d || link_suspicious d).
Proof.
  unfold link_clean, link_placeholder, link_suspicious.
  destruct (d !! py "link") as [[]|]; try reflexivity.
  rewrite Nat.ltb_antisym.
  destruct (Str.contains (py "User to research") s),
    (Str.contains (py "http") s), (length s <=? 200)%nat; reflexivity.
Qed.

Lemma clear_link_get (d : dict) (k : pstr) (dflt : value) :
  k <> py "link" -> dict_get (clear_link d) k dflt = dict_get d k dflt.
Proof. intros Hk. unfold dict_get. rewrite clear_link_other by exact Hk. reflexivity. Qed.

Lemma dates_ordered_clear_link (d : dict) :
  dates_ordered (clear_link d) = dates_ordered d.
Proof.
  unfold dates_ordered. rewrite !clear_link_get by key_neq. reflexivity.
Qed.

Lemma swap_dates_ordered (d : dict) :
  dates_comparable d = true -> dates_ordered (swap_dates d) = true.
Proof.
  intros Hc. unfold swap_dates. destruct (dates_inverted d) eqn:Hi.
  - revert Hi. unfold dates_inverted, dates_ordered.
    destruct (parse_date (dict_get d (py "arrival") (VStr []))) as [a|] eqn:Ha;
      [|discriminate].
    destruct (parse_date (dict_get d (py "departure") (VStr []))) as [b|] eqn:Hb;
      [|discriminate].
    destruct (dt_compare a b) as [[]|] eqn:Hab; try discriminate. intros _.
    unfold dict_get. rewrite lookup_insert_ne by key_neq.
    rewrite !lookup_insert_eq. fold (dict_get d (py "arrival") (VStr [])).
    fold (dict_get d (py "departure") (VStr [])).
    rewrite Ha, Hb, dt_compare_antisym, Hab. reflexivity.
  - rewrite dates_ordered_alt, Hc, Hi. reflexivity.
Qed.

Lemma clear_link_clean (d : dict) : link_clean (clear_link d) = true.
Proof.
  unfold clear_link.
  destruct (link_placeholder d || link_suspicious d) eqn:E.
  - unfold link_clean. rewrite lookup_insert_eq. vm_compute. reflexivity.
  - rewrite link_clean_alt, E. reflexivity.
Qed.

(** X4.  In fix mode the date check and the link checks never fail a
    row, and for a record whose dates compare they hand to the
    normalisation a record whose dates are in order and whose link is not
    flagged. *)
Theorem fix_repairs_dates_and_link (i : nat) (d : dict) (row_ok : bool) :
  dates_comparable d = true ->
  exists o1 o2,
    check_dates true i d row_ok = (o1, Ok (swap_dates d, row_ok))
    /\ check_link true i (swap_dates d) row_ok
       = (o2, Ok (clear_link (swap_dates d), row_ok))
    /\ dates_ordered (clear_link (swap_dates d)) = true
    /\ link_clean (clear_link (swap_dates d)) = true.
Proof.
  intros Hc.
  pose proof (check_dates_result true i d row_ok) as H1. rewrite Hc in H1.
  pose proof (check_link_result true i (swap_dates d) row_ok) as H2.
  simpl in H1, H2. rewrite andb_true_r in H1, H2.
  destruct (check_dates true i d row_ok) as [o1 r1].
  destruct (check_link true i (swap_dates d) row_ok) as [o2 r2].
  simpl in H1, H2. subst r1 r2. exists o1, o2.
  split; [reflexivity|]. split; [reflexivity|]. split.
  - rewrite dates_ordered_clear_link. apply swap_dates_ordered, Hc.
  - apply clear_link_clean.
Qed.

Lemma parse_date_nonstr (v : value) :
  (forall s, v <> VStr s) -> parse_date v = None.
Proof. intros Hv. destruct v; try reflexivity. exfalso. exact (Hv s eq_refl). Qed.

Lemma swap_dates_nonstr (d : dict) (k : pstr) (v : value) :
  d !! k = Some v -> (forall s, v <> VStr s) -> swap_dates d !! k = Some v.
Proof.
  intros Hk Hv.
  destruct (decide (k = py "arrival")) as [->|Ha].
  - unfold swap_dates, dates_inverted, dict_get at 1. rewrite Hk.
    rewrite (parse_date_nonstr v Hv). exact Hk.
  - destruct (decide (k = py "departure")) as [->|Hd].
    + unfold swap_dates, dates_inverted, dict_get at 2. rewrite Hk.
      rewrite (parse_date_nonstr v Hv).
      destruct (parse_date _); exact Hk.
    + rewrite swap_dates_other by assumption. exact Hk.
Qed.

Lemma clear_link_nonstr (d : dict) (k : pstr) (v : value) :
  d !! k = Some v -> (forall s, v <> VStr s) -> clear_link d !! k = Some v.
Proof.
  intros Hk Hv. destruct (decide (k = py "link")) as [->|Hl].
  - unfold clear_link, link_placeholder, link_suspicious. rewrite Hk.
    destruct v; try exact Hk. exfalso. exact (Hv s eq_refl).
  - rewrite clear_link_other by exact Hl. exact Hk.
Qed.

(** X5.  Fix mode never changes a value that is no string (a number, a
    boolean, [null], a list, an object), at any key; and at every key
    other than [arrival], [departure] and [link] all it does is normalise
    the text.  So it repairs neither a missing field nor a coordinate:
    in fix mode a row passes exactly when the record is complete and its
    coordinates pass. *)
Theorem fix_keeps_other_values (i : nat) (d : dict) :
  (dates_comparable d = true ->
   snd (main_row true i (VDict d))
   = Ok (VDict (fix_record d), complete d && coordinates_pass d))
  /\ (forall k v, d !! k = Some v -> (forall s, v <> VStr s) ->
                  fix_record d !! k = Some v)
  /\ (forall k, k <> py "arrival" -> k <> py "departure" -> k <> py "link" ->
                fix_record d !! k = clean_value <$> d !! k).
Proof.
  assert (Hother : forall k, k <> py "arrival" -> k <> py "departure" ->
                             k <> py "link" ->
                             fix_record d !! k = clean_value <$> d !! k).
  { intros k Ha Hd Hl. unfold fix_record, clean_record.
    rewrite lookup_fmap, clear_link_other, swap_dates_other by assumption.
    reflexivity. }
  split; [|split; [|exact Hother]].
  - intros Hc. rewrite main_row_result, Hc. unfold row_record, row_passes.
    simpl. rewrite andb_true_r. reflexivity.
  - intros k v Hk Hv. unfold fix_record, clean_record. rewrite lookup_fmap.
    rewrite (clear_link_nonstr _ k v (swap_dates_nonstr d k v Hk Hv) Hv).
    simpl. destruct v; try reflexivity. exfalso. exact (Hv s eq_refl).
Qed.

(** ** Keys *)

Lemma dom_clear_link (d : dict) : dom (clear_link d) = dom d.
Proof.
  unfold clear_link. destruct (link_placeholder d || link_suspicious d) eqn:E;
    [|reflexivity].
  apply dom_insert_lookup_L. revert E. unfold link_placeholder, link_suspicious.
  destruct (d !! py "link"); [eauto | discriminate].
Qed.

Lemma parsed_is_present (d : dict) (k : pstr) (a : datetime) :
  fromisoformat [] = None ->
  parse_date (dict_get d k (VStr [])) = Some a -> is_Some (d !! k).
Proof.
  intros He. unfold dict_get. destruct (d !! k); [eauto|].
  simpl. rewrite He. discriminate.
Qed.

Lemma dom_swap_dates (d : dict) :
  fromisoformat [] = None -> dom (swap_dates d) = dom d.
Proof.
  intros He. unfold swap_dates. destruct (dates_inverted d) eqn:E; [|reflexivity].
  revert E. unfold dates_inverted.
  destruct (parse_date (dict_get d (py "arrival") (VStr []))) as [a|] eqn:Ha;
    [|discriminate].
  destruct (parse_date (dict_get d (py "departure") (VStr []))) as [b|] eqn:Hb;
    [|discriminate].
  intros _. rewrite dom_insert_lookup_L.
  - apply dom_insert_lookup_L, (parsed_is_present d _ a He Ha).
  - rewrite lookup_insert_ne by key_neq. apply (parsed_is_present d _ b He Hb).
Qed.

(** X6.  Fix mode neither adds nor removes a key (the empty string is
    no ISO date, so that a swap only happens between two fields that are
    there): a fix run over records whose dates compare gives back as many
    records, each with the keys it had. *)
Theorem fix_keeps_keys (ds : list dict) :
  fromisoformat [] = None ->
  Forall (fun d => dates_comparable d = true) ds ->
  exists out ok,
    snd (loop true 1 (VDict <$> ds) [] true) = Ok (VDict <$> out, ok)
    /\ Forall2 (fun d d' : dict => dom d' = dom d) ds out.
Proof.
  intros He Hc. exists (fix_record <$> ds), (forallb (row_passes true) ds).
  split; [apply (loop_result_dicts true ds Hc)|].
  clear Hc. induction ds as [|d ds IH]; [constructor|].
  cbn [fmap list_fmap]. constructor; [|exact IH].
  unfold fix_record, clean_record.
  rewrite dom_fmap_L, dom_clear_link. apply dom_swap_dates, He.
Qed.

(** ** Idempotence on clean text *)

Lemma clean_record_values (d : dict) :
  clean_record d = d <-> forall k v, d !! k = Some v -> clean_value v = v.
Proof.
  unfold clean_record. split.
  - intros H k v Hk. apply (f_equal (fun m : dict => m !! k)) in H.
    rewrite lookup_fmap, Hk in H. simpl in H. congruence.
  - intros H. apply map_eq. intros k. rewrite lookup_fmap.
    destruct (d !! k) as [v|] eqn:Hk; [|reflexivity]. simpl.
    rewrite (H k v Hk). reflexivity.
Qed.

Lemma clean_dict_get (d : dict) (k : pstr) :
  clean_record d = d ->
  clean_value (dict_get d k (VStr [])) = dict_get d k (VStr []).
Proof.
  intros H. unfold dict_get. destruct (d !! k) as [v|] eqn:Hk; [|reflexivity].
  apply (proj1 (clean_record_values d) H k v Hk).
Qed.

Lemma clean_record_insert (d : dict) (k : pstr) (v : value) :
  clean_record d = d -> clean_value v = v -> clean_record (<[k := v]> d) = <[k := v]> d.
Proof.
  intros Hd Hv. unfold clean_record in *. rewrite fmap_insert, Hd, Hv. reflexivity.
Qed.

Lemma fix_record_clean (d : dict) :
  clean_record d = d -> fix_record d = clear_link (swap_dates d).
Proof.
  intros H. unfold fix_record, clear_link, swap_dates.
  destruct (dates_inverted d), (link_placeholder _ || link_suspicious _);
    repeat (apply clean_record_insert);
    try (apply clean_dict_get); try exact H; reflexivity.
Qed.

Lemma fix_record_fixed (d : dict) :
  clean_record d = d -> dates_ordered d = true -> link_clean d = true ->
  fix_record d = d.
Proof.
  intros Hc Hd Hl. rewrite (fix_record_clean d Hc).
  rewrite dates_ordered_alt in Hd. apply andb_true_iff in Hd as [_ Hd].
  apply negb_true_iff in Hd. rewrite link_clean_alt in Hl.
  apply negb_true_iff in Hl.
  unfold swap_dates. rewrite Hd. unfold clear_link. rewrite Hl. reflexivity.
Qed.

Lemma fix_record_idempotent (d : dict) :
  clean_record d = d -> dates_comparable d = true ->
  fix_record (fix_record d) = fix_record d
  /\ dates_comparable (fix_record d) = true.
Proof.
  intros Hc Hd.
  assert (Ho : dates_ordered (fix_record d) = true).
  { rewrite (fix_record_clean d Hc), dates_ordered_clear_link.
    apply swap_dates_ordered, Hd. }
  split.
  - apply fix_record_fixed; [|exact Ho|].
    + unfold fix_record. apply fmap_clean_idempotent.
    + rewrite (fix_record_clean d Hc). apply clear_link_clean.
  - rewrite dates_ordered_alt in Ho. apply andb_true_iff in Ho. apply Ho.
Qed.

(** X7.  On a dataset whose strings are all clean already (and whose
    dates compare), valid or not, fix mode is idempotent: the records a
    second fix run returns are the records the first one returned. *)
Theorem fix_idempotent_on_clean_text (ds : list dict) :
  Forall (fun d => clean_record d = d /\ dates_comparable d = true) ds ->
  exists ok ok',
    snd (loop true 1 (VDict <$> ds) [] true)
    = Ok (VDict <$> (fix_record <$> ds), ok)
    /\ snd (loop true 1 (VDict <$> (fix_record <$> ds)) [] true)
       = Ok (VDict <$> (fix_record <$> ds), ok').
Proof.
  intros H.
  assert (H1 : Forall (fun d => dates_comparable d = true) ds).
  { eapply Forall_impl; [exact H|]. intros d Hd. apply Hd. }
  assert (H2 : Forall (fun d => dates_comparable d = true) (fix_record <$> ds)).
  { apply Forall_fmap. eapply Forall_impl; [exact H|]. intros d [Hc Hd].
    apply (fix_record_idempotent d Hc Hd). }
  assert (H3 : fix_record <$> (fix_record <$> ds) = fix_record <$> ds).
  { clear H1 H2. induction H as [|d ds [Hc Hd] Hds IH]; [reflexivity|].
    cbn [fmap list_fmap]. f_equal; [|exact IH].
    apply (fix_record_idempotent d Hc Hd). }
  exists (forallb (row_passes true) ds),
         (forallb (row_passes true) (fix_record <$> ds)).
  split; [apply (loop_result_dicts true ds H1)|].
  rewrite (loop_result_dicts true _ H2).
  change (row_record true) with fix_record. rewrite H3. reflexivity.
Qed.

(** ** The coordinate check on values that are no numbers *)

Lemma float_fails (v : value) :
  (forall x, float v <> Ok x) -> exists e, float v = Raise e.
Proof. intros H. destruct (float v) as [x|e]; [destruct (H x eq_refl) | eauto]. Qed.

(** X8.  When [lat] or [lon] does not coerce to a number, the
    coordinate check prints one not-numeric line, which shows the two
    values as the record has them, prints no range diagnostic, and fails
    the row: the row does not pass, in either mode, and a run over a list
    that holds the record ends with status 1. *)
Theorem coordinates_not_numeric (fix_ : bool) (i : nat) (d : dict) (row_ok : bool) :
  (forall x, float (dict_get d (py "lat") (VInt 0)) <> Ok x)
  \/ (forall x, float (dict_get d (py "lon") (VInt 0)) <> Ok x) ->
  check_latlon i d row_ok
  = ([Stdout (NotNumeric i (d !! py "lat") (d !! py "lon"))], Ok false)
  /\ (forall item, snd (main_row fix_ i (VDict d)) <> Ok (item, true))
  /\ (forall data path inplace,
        In (VDict d) data ->
        snd (main (Json (VList data)) path fix_ inplace) <> Ok 0
        /\ snd (script (Json (VList data)) path fix_ inplace) = 1).
Proof.
  intros H.
  assert (Hblock : check_latlon i d row_ok
                   = ([Stdout (NotNumeric i (d !! py "lat") (d !! py "lon"))],
                      Ok false)).
  { unfold check_latlon. destruct H as [H|H].
    - destruct (float_fails _ H) as [e ->]. reflexivity.
    - destruct (float_fails _ H) as [e ->].
      destruct (float (dict_get d (py "lat") (VInt 0))); reflexivity. }
  assert (Hfail : forall j item, snd (main_row fix_ j (VDict d)) <> Ok (item, true)).
  { intros j. apply main_row_fails, row_passes_coordinates.
    unfold coordinates_pass. destruct H as [H|H].
    - destruct (float_fails _ H) as [e ->]. reflexivity.
    - destruct (float_fails _ H) as [e ->].
      destruct (float (dict_get d (py "lat") (VInt 0))); reflexivity. }
  split; [exact Hblock|]. split; [apply Hfail|].
  intros data path inplace Hin.
  apply (failing_row_status fix_ inplace (VDict d) data path Hin Hfail).
Qed.

(** ** No check is skipped *)

Lemma check_latlon_output (i : nat) (d : dict) (row_ok : bool) :
  fst (check_latlon i d row_ok) = fst (check_latlon i d true).
Proof.
  unfold check_latlon.
  destruct (float (dict_get d (py "lat") (VInt 0))) as [lat|]; [|reflexivity].
  destruct (float (dict_get d (py "lon") (VInt 0))) as [lon|]; [|reflexivity].
  destruct (Float.between (-90) 90 lat), (Float.between (-180) 180 lon);
    reflexivity.
Qed.

Lemma check_dates_output (fix_ : bool) (i : nat) (d : dict) (row_ok : bool) :
  fst (check_dates fix_ i d row_ok) = fst (check_dates fix_ i d true).
Proof.
  unfold check_dates.
  destruct (parse_date (dict_get d (py "arrival") (VStr []))) as [a|];
    [|reflexivity].
  destruct (parse_date (dict_get d (py "departure") (VStr []))) as [b|];
    [|reflexivity].
  destruct (dt_compare a b) as [[]|]; destruct fix_; reflexivity.
Qed.


(** ** Row numbers *)

Lemma Forall_bind {A B} (P : event -> Prop) (m : M A) (k : A -> M B) :
  Forall P (fst m) -> (forall a, Forall P (fst (k a))) ->
  Forall P (fst (bind m k)).
Proof.
  intros Hm Hk. rewrite fst_bind. apply Forall_app. split; [exact Hm|].
  destruct (snd m); [apply Hk | constructor].
Qed.

Lemma main_row_numbered (fix_ : bool) (i : nat) (item : value) :
  Forall (fun e => event_row e = Some i) (fst (main_row fix_ i item)).
Proof.
  unfold main_row. apply Forall_bind.
  { unfold check_missing. apply Forall_bind; [constructor|].
    intros [|f fs]; repeat constructor. }
  intros r. destruct item as [| | | | | |d]; try constructor.
  apply Forall_bind.
  { unfold check_latlon.
    destruct (float (dict_get d (py "lat") (VInt 0))) as [lat|];
      [|repeat constructor].
    destruct (float (dict_get d (py "lon") (VInt 0))) as [lon|];
      [|repeat constructor].
    destruct (Float.between (-90) 90 lat), (Float.between (-180) 180 lon);
      repeat constructor. }
  intros r1. apply Forall_bind.
  { unfold check_dates.
    destruct (parse_date (dict_get d (py "arrival") (VStr []))) as [a|];
      [|constructor].
    destruct (parse_date (dict_get d (py "departure") (VStr []))) as [b|];
      [|constructor].
    destruct (dt_compare a b) as [[]|]; destruct fix_; repeat constructor. }
  intros [d1 r2]. apply Forall_bind; [|intros [d2 r3]; constructor].
  rewrite check_link_output.
  destruct (link_placeholder d1), (link_suspicious d1), fix_; repeat constructor.
Qed.

(** X10.  Every line a row prints carries the number of the row, and
    rows are numbered from 1 in the order of the list: the lines of a
    loop that starts at [i] carry numbers from [i] to [i + len(data) - 1],
    and whatever the row numbered [len(pre) + 1] prints for the item that
    follows [pre] is in the output of [main], once the rows before it
    have run to their end. *)
Theorem diagnostics_carry_row_number (fix_ : bool) :
  (forall i item,
     Forall (fun e => event_row e = Some i) (fst (main_row fix_ i item)))
  /\ (forall data i cleaned ok,
        Forall (fun e => exists j, event_row e = Some j
                                   /\ (i <= j < i + length data)%nat)
               (fst (loop fix_ i data cleaned ok)))
  /\ (forall pre item post path inplace e,
        Forall (fun item => row_completes item = true) pre ->
        In e (fst (main_row fix_ (S (length pre)) item)) ->
        In e (fst (main (Json (VList (pre ++ item :: post))) path fix_ inplace))).
Proof.
  split; [apply main_row_numbered|]. split.
  - induction data as [|item data IH]; intros i cleaned ok; [constructor|].
    cbn [loop]. apply Forall_bind.
    + eapply Forall_impl; [apply main_row_numbered|].
      intros e He. exists i. split; [exact He|]. simpl. lia.
    + intros [item' r]. eapply Forall_impl; [apply IH|].
      intros e (j & Hj & Hr). exists j. split; [exact Hj|]. simpl. lia.
  - intros pre item post path inplace e. apply row_output_in_main.
Qed.

(** ** How a run ends *)

Lemma check_missing_sequence (i : nat) (item : value) :
  (exists s, item = VStr s) \/ (exists l, item = VList l) ->
  exists r, snd (check_missing i item) = Ok r.
Proof.
  intros [[s ->]|[l ->]]; unfold check_missing; rewrite snd_bind;
    cbn [missing_fields lift snd];
    destruct (List.filter _ REQUIRED_FIELDS); eauto.
Qed.

Lemma main_row_raises (fix_ : bool) (i : nat) (item : value) (e : exn) :
  row_exn item = Some e -> snd (main_row fix_ i item) = Raise e.
Proof.
  destruct item as [| | | | |l|d]; cbn [row_exn]; try (intros [= <-]; reflexivity).
  - intros [= <-]. unfold main_row. rewrite snd_bind.
    destruct (check_missing_sequence i (VStr s)) as [r ->]; [eauto|reflexivity].
  - intros [= <-]. unfold main_row. rewrite snd_bind.
    destruct (check_missing_sequence i (VList l)) as [r ->]; [eauto|reflexivity].
  - rewrite main_row_result. destruct (dates_comparable d); [discriminate|].
    intros [= <-]. reflexivity.
Qed.

Lemma main_row_returns (fix_ : bool) (i : nat) (item : value) :
  row_exn item = None ->
  exists item', snd (main_row fix_ i item) = Ok (item', item_passes fix_ item).
Proof.
  destruct item as [| | | | | |d]; try discriminate. simpl.
  rewrite main_row_result. destruct (dates_comparable d); [|discriminate].
  eauto.
Qed.

Lemma loop_raises (fix_ : bool) (data : list value) (e : exn) :
  first_exn data = Some e ->
  forall i cleaned ok, snd (loop fix_ i data cleaned ok) = Raise e.
Proof.
  induction data as [|item data IH]; [discriminate|]. simpl.
  intros H i cleaned ok. rewrite snd_bind.
  destruct (row_exn item) as [e'|] eqn:E.
  - injection H as ->. rewrite (main_row_raises fix_ i item e E). reflexivity.
  - destruct (main_row_returns fix_ i item E) as [item' ->]. apply IH, H.
Qed.

Lemma loop_returns (fix_ : bool) (data : list value) :
  first_exn data = None ->
  forall i cleaned ok,
    exists cleaned',
      snd (loop fix_ i data cleaned ok)
      = Ok (cleaned', ok && forallb (item_passes fix_) data)
      /\ length cleaned' = (length cleaned + length data)%nat.
Proof.
  induction data as [|item data IH]; simpl; intros H i cleaned ok.
  - exists cleaned. rewrite andb_true_r. split; [reflexivity|lia].
  - destruct (row_exn item) as [e'|] eqn:E; [discriminate|].
    rewrite snd_bind. destruct (main_row_returns fix_ i item E) as [item' ->].
    destruct (IH H (S i) (cleaned ++ [item'])
                (if item_passes fix_ item then ok else false))
      as (cleaned' & -> & Hlen).
    exists cleaned'. split.
    + destruct (item_passes fix_ item), ok; reflexivity.
    + rewrite Hlen, length_app. simpl. lia.
Qed.

Lemma main_raises (fix_ inplace : bool) (data : list value) (path : Path)
      (e : exn) :
  first_exn data = Some e ->
  snd (main (Json (VList data)) path fix_ inplace) = Raise e.
Proof.
  intros E. rewrite main_result, (loop_raises fix_ data e E). reflexivity.
Qed.

Lemma main_returns (fix_ inplace : bool) (data : list value) (path : Path) :
  first_exn data = None ->
  exists cleaned,
    snd (loop fix_ 1 data [] true)
    = Ok (cleaned, forallb (item_passes fix_) data)
    /\ length cleaned = length data
    /\ snd (main (Json (VList data)) path fix_ inplace)
       = match snd (write_output path fix_ inplace cleaned) with
         | Ok _ => Ok (if forallb (item_passes fix_) data then 0 else 1)
         | Raise e => Raise e
         end.
Proof.
  intros E. destruct (loop_returns fix_ data E 1 [] true) as (cleaned & Hl & Hlen).
  exists cleaned. split; [exact Hl|]. split; [exact Hlen|].
  rewrite main_result, Hl. reflexivity.
Qed.

Lemma main_status_nonfix (inplace : bool) (data : list value) (path : Path) :
  snd (main (Json (VList data)) path false inplace)
  = match first_exn data with
    | Some e => Raise e
    | None => Ok (if forallb (item_passes false) data then 0 else 1)
    end.
Proof.
  destruct (first_exn data) as [e|] eqn:E.
  - apply main_raises, E.
  - destruct (main_returns false inplace data path E) as (cleaned & _ & _ & ->).
    reflexivity.
Qed.

(** The write of line 122 goes through exactly when there is nothing to
    write, or the file opens and the text can be encoded. *)
Lemma write_output_succeeds (p : Path) (inplace : bool) (cleaned : list value) :
  (exists u, snd (write_output p true inplace cleaned) = Ok u)
  <-> cleaned = []
      \/ (opens_for_writing
            (if inplace then p
             else pathlib.with_name p
                    (pathlib.stem p ++ py ".fixed" ++ pathlib.suffix p)) = true
          /\ encodes cleaned = true).
Proof.
  unfold write_output. destruct cleaned as [|c cs].
  - split; [intros _; left; reflexivity | intros _; exists tt; reflexivity].
  - destruct (opens_for_writing _); [destruct (encodes (c :: cs))|]; simpl.
    + split; [intros _; right; split; reflexivity | intros _; exists tt; reflexivity].
    + split; [intros [u Hu]; discriminate | intros [H|[_ H]]; discriminate].
    + split; [intros [u Hu]; discriminate | intros [H|[H _]]; discriminate].
Qed.

(** X11.  How a run over a list ends is decided row by row, and then
    by the write.  It ends with the exception of the first row that
    raises: [TypeError] for an item that is [null], a boolean or a
    number, [AttributeError] for a string or a list, [TypeError] for a
    record whose two dates parse and do not compare.  Then no file is
    touched, in fix mode too, and the process ends with the traceback and
    status 1.  When no row raises, the loop returns as many items as it
    was given; unless the write of line 122 raises, which ends the run
    with its exception, [main] returns 0 if every item is a record whose
    row passes, and 1 otherwise.  Without fix mode nothing is written and
    that is what [main] returns. *)
Theorem run_ends_by_rows (fix_ inplace : bool) (data : list value) (path : Path) :
  (forall e,
     first_exn data = Some e ->
     snd (main (Json (VList data)) path fix_ inplace) = Raise e
     /\ writes (fst (script (Json (VList data)) path fix_ inplace)) = []
     /\ snd (script (Json (VList data)) path fix_ inplace) = 1
     /\ exists o, fst (script (Json (VList data)) path fix_ inplace)
                  = o ++ [Traceback e])
  /\ (first_exn data = None ->
      exists cleaned,
        snd (loop fix_ 1 data [] true)
        = Ok (cleaned, forallb (item_passes fix_) data)
        /\ length cleaned = length data
        /\ snd (main (Json (VList data)) path fix_ inplace)
           = match snd (write_output path fix_ inplace cleaned) with
             | Ok _ => Ok (if forallb (item_passes fix_) data then 0 else 1)
             | Raise e => Raise e
             end)
  /\ snd (main (Json (VList data)) path false inplace)
     = match first_exn data with
       | Some e => Raise e
       | None => Ok (if forallb (item_passes false) data then 0 else 1)
       end.
Proof.
  split; [|split; [apply main_returns | apply main_status_nonfix]].
  intros e He.
  pose proof (main_raises fix_ inplace data path e He) as Hs.
  split; [exact Hs|]. split; [|split].
  - rewrite script_writes, main_writes, (loop_raises fix_ data e He). reflexivity.
  - rewrite script_status, Hs. reflexivity.
  - unfold script. destruct (main (Json (VList data)) path fix_ inplace) as [o r].
    simpl in Hs. subst r. eauto.
Qed.

(** ** Which datasets are accepted *)

Lemma valid_record_alt (d : dict) :
  valid_record d = dates_comparable d && row_passes false d.
Proof.
  unfold valid_record, row_passes. rewrite dates_ordered_alt, link_clean_alt.
  destruct (complete d) eqn:Hc.
  - assert (Hco : coordinate_within (-90) 90 d (py "lat")
                  && coordinate_within (-180) 180 d (py "lon")
                  = coordinates_pass d).
    { pose proof (complete_lookup d _ Hc lat_required) as Hlat.
      pose proof (complete_lookup d _ Hc lon_required) as Hlon.
      unfold coordinate_within, coordinates_pass, dict_get.
      destruct (d !! py "lat") as [lat|]; [|congruence].
      destruct (d !! py "lon") as [lon|]; [|congruence].
      destruct (float lat), (float lon); try reflexivity.
      apply andb_false_r. }
    simpl. rewrite Hco.
    destruct (coordinates_pass d), (dates_comparable d), (dates_inverted d),
      (link_placeholder d || link_suspicious d); reflexivity.
  - simpl. rewrite andb_false_r. reflexivity.
Qed.

Lemma items_pass_records (fix_ : bool) (data : list value) :
  forallb (item_passes fix_) data = true ->
  exists ds, data = VDict <$> ds /\ Forall (fun d => row_passes fix_ d = true) ds.
Proof.
  induction data as [|item data IH]; simpl.
  - intros _. exists []. split; [reflexivity|constructor].
  - intros [Hitem (ds & -> & Hds)%IH]%andb_true_iff.
    destruct item as [| | | | | |d]; try discriminate.
    exists (d :: ds). split; [reflexivity|]. constructor; assumption.
Qed.

Lemma first_exn_records (ds : list dict) :
  first_exn (VDict <$> ds) = None <-> Forall (fun d => dates_comparable d = true) ds.
Proof.
  induction ds as [|d ds IH]; simpl.
  - split; [constructor | reflexivity].
  - destruct (dates_comparable d) eqn:E.
    + rewrite IH. split; [intros H; constructor; assumption|].
      intros H. inversion H; assumption.
    + split; [discriminate|]. intros H. inversion H; congruence.
Qed.

Lemma records_pass_items (fix_ : bool) (ds : list dict) :
  Forall (fun d => row_passes fix_ d = true) ds ->
  forallb (item_passes fix_) (VDict <$> ds) = true.
Proof.
  induction 1 as [|d ds Hd Hds IH]; [reflexivity|]. simpl.
  rewrite Hd. exact IH.
Qed.

(** Without fix mode the status is 0 exactly for the lists of records
    whose rows all return and pass. *)
Lemma main_accepts_nonfix (inplace : bool) (data : list value) (path : Path) :
  snd (main (Json (VList data)) path false inplace) = Ok 0
  <-> exists ds, data = VDict <$> ds
                 /\ Forall (fun d => dates_comparable d = true
                                     /\ row_passes false d = true) ds.
Proof.
  rewrite main_status_nonfix. split.
  - destruct (first_exn data) eqn:E; [discriminate|].
    destruct (forallb (item_passes false) data) eqn:Hp; [|discriminate].
    intros _. destruct (items_pass_records false data Hp) as (ds & -> & Hds).
    exists ds. split; [reflexivity|]. apply first_exn_records in E.
    apply Forall_and. split; assumption.
  - intros (ds & -> & [Hc Hp]%Forall_and).
    rewrite (proj2 (first_exn_records ds) Hc), (records_pass_items false ds Hp).
    reflexivity.
Qed.

(** X12.  Validation accepts nothing but valid data: without fix mode
    [main] returns 0 if and only if the list consists of records that are
    all valid. *)
Theorem nonfix_accepts_exactly_valid (inplace : bool) (data : list value)
        (path : Path) :
  snd (main (Json (VList data)) path false inplace) = Ok 0
  <-> exists ds, data = VDict <$> ds /\ Forall (fun d => valid_record d = true) ds.
Proof.
  rewrite main_accepts_nonfix. split; intros (ds & -> & H); exists ds;
    (split; [reflexivity|]); (eapply Forall_impl; [exact H|]); intros d Hd;
    cbv beta in *.
  - rewrite valid_record_alt. destruct Hd as [-> ->]. reflexivity.
  - rewrite valid_record_alt in Hd. apply andb_true_iff in Hd. exact Hd.
Qed.

(** A fix run over records whose dates compare: the write of the
    repaired records decides whether [main] returns. *)
Lemma main_fix_dicts (inplace : bool) (ds : list dict) (path : Path) :
  Forall (fun d => dates_comparable d = true) ds ->
  snd (main (Json (VList (VDict <$> ds))) path true inplace)
  = match snd (write_output path true inplace (VDict <$> (fix_record <$> ds))) with
    | Ok _ => Ok (if forallb (row_passes true) ds then 0 else 1)
    | Raise e => Raise e
    end.
Proof.
  intros Hc. rewrite main_result, (loop_result_dicts true ds Hc). reflexivity.
Qed.

Lemma fmap_nil_inv {A B} (f : A -> B) (l : list A) : f <$> l = [] -> l = [].
Proof. destruct l; [reflexivity | discriminate]. Qed.

(** X13.  In fix mode [main] returns 0 if and only if the list consists
    of records that are complete, whose coordinates pass and whose dates
    compare, and the write goes through: the list is empty, or the output
    path opens and every string of the repaired records can be encoded.
    Inverted dates and flagged links, which fix mode repairs, do not
    count; a string with a lone surrogate makes the write raise. *)
Theorem fix_accepts_complete_records (inplace : bool) (data : list value)
        (path : Path) :
  snd (main (Json (VList data)) path true inplace) = Ok 0
  <-> exists ds,
        data = VDict <$> ds
        /\ Forall (fun d => dates_comparable d = true /\ complete d = true
                            /\ coordinates_pass d = true) ds
        /\ (ds = []
            \/ (opens_for_writing
                  (if inplace then path
                   else pathlib.with_name path
                          (pathlib.stem path ++ py ".fixed"
                             ++ pathlib.suffix path)) = true
                /\ encodes (VDict <$> (fix_record <$> ds)) = true)).
Proof.
  split.
  - intros Hrun. destruct (first_exn data) as [e|] eqn:E.
    { rewrite (main_raises true inplace data path e E) in Hrun. discriminate. }
    destruct (main_returns true inplace data path E) as (cleaned & Hl & _ & Hm).
    rewrite Hm in Hrun.
    destruct (snd (write_output path true inplace cleaned)) as [u|] eqn:Hw;
      [|discriminate].
    destruct (forallb (item_passes true) data) eqn:Hp; [|discriminate].
    destruct (items_pass_records true data Hp) as (ds & -> & Hds).
    apply first_exn_records in E.
    rewrite (loop_result_dicts true ds E) in Hl. injection Hl as Hcl _.
    exists ds. split; [reflexivity|]. split.
    + apply Forall_forall. intros d Hin. rewrite Forall_forall in E, Hds.
      specialize (E d Hin). specialize (Hds d Hin). unfold row_passes in Hds.
      simpl in Hds. rewrite andb_true_r in Hds.
      apply andb_true_iff in Hds as [H1 H2]. auto.
    + destruct (proj1 (write_output_succeeds path inplace cleaned)
                  (ex_intro _ u Hw)) as [Hnil|Hok].
      * left. subst cleaned. simpl in Hnil.
        apply fmap_nil_inv, fmap_nil_inv in Hnil. exact Hnil.
      * right. subst cleaned. exact Hok.
  - intros (ds & -> & H & Hw).
    assert (Hc : Forall (fun d => dates_comparable d = true) ds).
    { eapply Forall_impl; [exact H|]. intros d Hd. apply Hd. }
    assert (Hp : forallb (row_passes true) ds = true).
    { apply forallb_forall. intros d Hin. rewrite Forall_forall in H.
      destruct (H d (proj2 (list_elem_of_In _ _) Hin)) as (_ & H1 & H2).
      unfold row_passes. rewrite H1, H2. reflexivity. }
    rewrite (main_fix_dicts inplace ds path Hc), Hp.
    assert (Hs : exists u, snd (write_output path true inplace
                                  (VDict <$> (fix_record <$> ds))) = Ok u).
    { apply write_output_succeeds. destruct Hw as [->|Hw]; [left; reflexivity|].
      right. exact Hw. }
    destruct Hs as [u ->]. reflexivity.
Qed.

Lemma item_passes_fix (item : value) :
  item_passes false item = true -> item_passes true item = true.
Proof.
  destruct item as [| | | | | |d]; try discriminate. simpl. unfold row_passes.
  intros [H _]%andb_true_iff. rewrite H. reflexivity.
Qed.

Lemma loop_raises_iff (fix_ : bool) (data : list value) (e : exn) :
  snd (loop fix_ 1 data [] true) = Raise e <-> first_exn data = Some e.
Proof.
  split.
  - destruct (first_exn data) as [e'|] eqn:E.
    + rewrite (loop_raises fix_ data e' E). congruence.
    + destruct (loop_returns fix_ data E 1 [] true) as (cleaned & -> & _).
      discriminate.
  - intros E. apply loop_raises, E.
Qed.

(** X14.  On the rows fix mode is the more lenient of the two modes,
    and its rows raise in the same cases: when validation accepts a
    file, every row of a fix run over it passes, so that the fix run does
    not return 1 (it returns 0, unless the write raises); and the loop of
    a fix run raises an exception exactly when the loop of the validation
    raises it. *)
Theorem fix_is_more_lenient (inplace inplace' : bool) (data : list value)
        (path : Path) :
  (snd (main (Json (VList data)) path false inplace) = Ok 0 ->
   (exists cleaned, snd (loop true 1 data [] true) = Ok (cleaned, true))
   /\ snd (main (Json (VList data)) path true inplace') <> Ok 1)
  /\ (forall e, snd (loop true 1 data [] true) = Raise e
                <-> snd (loop false 1 data [] true) = Raise e).
Proof.
  split.
  - rewrite main_status_nonfix.
    destruct (first_exn data) eqn:E; [discriminate|].
    destruct (forallb (item_passes false) data) eqn:Hp; [|discriminate].
    intros _.
    assert (Hp' : forallb (item_passes true) data = true).
    { rewrite forallb_forall in *. intros item Hin.
      apply item_passes_fix, Hp, Hin. }
    destruct (main_returns true inplace' data path E) as (cleaned & Hl & _ & Hm).
    rewrite Hp' in Hl, Hm. split; [eauto|]. rewrite Hm.
    destruct (snd (write_output path true inplace' cleaned)); discriminate.
  - intros e. rewrite !loop_raises_iff. reflexivity.
Qed.

(** ** The last line and the exit status *)

Lemma main_list_shape (fix_ inplace : bool) (data : list value) (path : Path) :
  main (Json (VList data)) path fix_ inplace
  = match loop fix_ 1 data [] true with
    | (o, Raise e) => (o, Raise e)
    | (o, Ok (cleaned, ok)) =>
        match write_output path fix_ inplace cleaned with
        | (w, Raise e) => (o ++ w, Raise e)
        | (w, Ok _) =>
            (o ++ w ++ [Stdout (if ok then ValidationPassed else ValidationFailed)],
             Ok (if ok then 0 else 1))
        end
    end.
Proof.
  unfold main. destruct (loop fix_ 1 data [] true) as [o [[cleaned ok]|e]];
    [|reflexivity].
  rewrite bind_Ok.
  destruct (write_output path fix_ inplace cleaned) as [w [u|e]].
  - rewrite bind_Ok. destruct ok; reflexivity.
  - reflexivity.
Qed.

Lemma last_line (o o' : list event) (e e' : event) :
  e <> e' -> o ++ [e] <> o' ++ [e'].
Proof. intros Hne H. apply app_inj_tail in H as [_ H]. exact (Hne H). Qed.

(** X15.  The exit status of the process is 0 or 1, and it is 0
    exactly when the last line of the run is ["Validation passed: no
    issues found."], whatever is at the path and whatever the mode. *)
Theorem status_zero_iff_passed_line (f : file) (path : Path) (fix_ inplace : bool) :
  (snd (script f path fix_ inplace) = 0 \/ snd (script f path fix_ inplace) = 1)
  /\ (snd (script f path fix_ inplace) = 0
      <-> exists o, fst (script f path fix_ inplace) = o ++ [Stdout ValidationPassed]).
Proof.
  assert (Hone : forall (e : event) (o : list event),
            e <> Stdout ValidationPassed -> [e] <> o ++ [Stdout ValidationPassed]).
  { intros e o He. apply (last_line [] o e _ He). }
  unfold script.
  destruct f as [| | |v];
    try (split; [right; reflexivity|]; split; [discriminate|];
         intros [o Ho]; exfalso; simpl in Ho; revert Ho; apply Hone; discriminate).
  destruct v as [| | | | |data|];
    try (split; [right; reflexivity|]; split; [discriminate|];
         intros [o Ho]; exfalso; simpl in Ho; revert Ho; apply Hone; discriminate).
  rewrite main_list_shape.
  destruct (loop fix_ 1 data [] true) as [o [[cleaned ok]|e]].
  - destruct (write_output path fix_ inplace cleaned) as [w [u|e]].
    + destruct ok; cbn [fst snd].
      * split; [left; reflexivity|]. split; [|reflexivity]. intros _.
        exists (o ++ w). rewrite <- app_assoc. reflexivity.
      * split; [right; reflexivity|]. split; [discriminate|]. intros [o' Ho].
        exfalso. rewrite app_assoc in Ho. revert Ho. apply last_line. discriminate.
    + cbn [fst snd]. split; [right; reflexivity|]. split; [discriminate|].
      intros [o' Ho]. exfalso. revert Ho. apply last_line. discriminate.
  - cbn [fst snd]. split; [right; reflexivity|]. split; [discriminate|].
    intros [o' Ho]. exfalso. revert Ho. apply last_line. discriminate.
Qed.

(** ** What is written *)

(** X16.  A run writes at most one file.  It writes only in fix mode,
    only a dataset that is a non-empty list none of whose rows raised,
    and then it writes as many items as the list has, with
    [ensure_ascii=False] and [indent=2], to the path itself with
    [inplace] and to the sibling path without. *)
Theorem at_most_one_write (f : file) (path : Path) (fix_ inplace : bool) :
  (length (writes (fst (script f path fix_ inplace))) <= 1)%nat
  /\ (forall out cleaned ensure_ascii indent,
        In (WriteJson out cleaned ensure_ascii indent)
           (fst (script f path fix_ inplace)) ->
        fix_ = true /\ ensure_ascii = false /\ indent = 2%nat
        /\ out = (if inplace then path
                  else pathlib.with_name path
                         (pathlib.stem path ++ py ".fixed" ++ pathlib.suffix path))
        /\ exists data,
             f = Json (VList data) /\ data <> [] /\ first_exn data = None
             /\ length cleaned = length data).
Proof.
  set (out_path := if inplace then path
                   else pathlib.with_name path
                          (pathlib.stem path ++ py ".fixed" ++ pathlib.suffix path)).
  assert (Hw : forall e, In e (writes (fst (script f path fix_ inplace))) ->
                         (length (writes (fst (script f path fix_ inplace))) <= 1)%nat
                         /\ exists cleaned data,
                              (e = WriteJson out_path cleaned false 2
                               \/ e = Truncated out_path)
                              /\ fix_ = true /\ f = Json (VList data)
                              /\ data <> [] /\ first_exn data = None
                              /\ length cleaned = length data).
  { rewrite script_writes. destruct f as [| | |v]; try (intros e []).
    destruct v as [| | | | |data|]; try (intros e []).
    rewrite main_writes. destruct (first_exn data) as [ex|] eqn:E.
    { rewrite (loop_raises fix_ data ex E). intros e []. }
    destruct (loop_returns fix_ data E 1 [] true) as (cleaned & -> & Hlen).
    unfold write_output. destruct fix_; [|intros e []].
    destruct cleaned as [|c cs]; [intros e []|]. fold out_path.
    destruct (opens_for_writing out_path); [|intros e []].
    destruct (encodes (c :: cs)); intros e [<-|[]]; (split; [simpl; lia|]);
      exists (c :: cs), data;
      (split; [auto|]); (split; [reflexivity|]); (split; [reflexivity|]);
      (split; [intros ->; discriminate Hlen|]); (split; [exact E | exact Hlen]). }
  split.
  - destruct (writes (fst (script f path fix_ inplace))) as [|e l] eqn:E;
      [simpl; lia|].
    apply (Hw e). left; reflexivity.
  - intros out cleaned a n Hin.
    assert (Hin' : In (WriteJson out cleaned a n)
                      (writes (fst (script f path fix_ inplace)))).
    { unfold writes. apply filter_In. split; [exact Hin | reflexivity]. }
    destruct (Hw _ Hin')
      as (_ & cleaned' & data & [[= -> -> -> ->]|Ht] & Hfix & Hf & Hne & He & Hlen);
      [|discriminate Ht].
    repeat split; try assumption; try reflexivity.
    exists data. repeat split; assumption.
Qed.

(** ** The sibling path *)

Lemma rfind_not_in (c : N) (s : pstr) : ~ In c s -> Str.rfind c s = None.
Proof.
  induction s as [|x s IH]; [reflexivity|]. simpl. intros H.
  rewrite IH by tauto. destruct (N.eqb_spec x c); [|reflexivity].
  exfalso. apply H. left. assumption.
Qed.

Lemma rfind_app (c : N) (s t : pstr) (j : nat) :
  Str.rfind c t = Some j -> Str.rfind c (s ++ t) = Some (length s + j)%nat.
Proof.
  intros H. induction s as [|x s IH]; [exact H|]. simpl. rewrite IH. reflexivity.
Qed.

(** X17.  The path a fix run writes to without [inplace] is never the
    path it read: it has the same parent and another name.  When the
    name has an extension, the new name has the same extension, and
    [".fixed"] is added to its stem; when it has none, [".fixed"] is
    added to the name. *)
Theorem sibling_path_is_new (p : Path) :
  let out := pathlib.with_name p
               (pathlib.stem p ++ py ".fixed" ++ pathlib.suffix p) in
  out <> p
  /\ parent out = parent p
  /\ (pathlib.suffix p <> [] ->
      pathlib.suffix out = pathlib.suffix p
      /\ pathlib.stem out = pathlib.stem p ++ py ".fixed")
  /\ (pathlib.suffix p = [] -> name out = name p ++ py ".fixed").
Proof.
  intros out. split; [|split; [reflexivity|split]].
  - intros H. apply (f_equal (fun q => length (name q))) in H.
    unfold out in H. cbn [pathlib.with_name name] in H.
    pose proof (f_equal length (stem_suffix p)) as Hl.
    rewrite length_app in Hl. rewrite !length_app in H.
    change (length (py ".fixed")) with 6%nat in H. lia.
  - intros Hs. destruct (suffix_shape p) as [He|(ext & He & Hne & Hnd)];
      [congruence|].
    assert (Hr : Str.rfind pathlib.dot (name out)
                 = Some (length (pathlib.stem p ++ py ".fixed"))).
    { unfold out. cbn [pathlib.with_name name]. rewrite He, app_assoc.
      rewrite (rfind_app _ _ (pathlib.dot :: ext) 0); [f_equal; lia|].
      simpl. rewrite (rfind_not_in _ _ Hnd). reflexivity. }
    assert (Hn : name out = (pathlib.stem p ++ py ".fixed") ++ pathlib.dot :: ext).
    { unfold out. cbn [pathlib.with_name name]. rewrite He, app_assoc. reflexivity. }
    assert (Hc : ((0 <? length (pathlib.stem p ++ py ".fixed"))%nat
                  && (length (pathlib.stem p ++ py ".fixed")
                      <? length (name out) - 1)%nat) = true).
    { apply andb_true_iff. rewrite !Nat.ltb_lt, Hn, !length_app.
      change (length (py ".fixed")) with 6%nat. simpl.
      destruct ext; [congruence|]. simpl. lia. }
    unfold pathlib.suffix at 1, pathlib.stem at 1. rewrite Hr, Hc, Hn.
    rewrite drop_app_length, take_app_length, He. split; reflexivity.
  - intros Hs. unfold out. cbn [pathlib.with_name name]. rewrite Hs, app_nil_r.
    pose proof (stem_suffix p) as Hn. rewrite Hs, app_nil_r in Hn.
    rewrite Hn. reflexivity.
Qed.

(** ** What the link checks look for *)

Lemma startswith_spec (pre s : pstr) :
  Str.startswith pre s = true <-> exists post, s = pre ++ post.
Proof.
  revert s. induction pre as [|a pre IH]; intros s; simpl.
  - split; [intros _; exists s; reflexivity | reflexivity].
  - destruct s as [|b s].
    + split; [discriminate | intros [post H]; discriminate].
    + rewrite andb_true_iff, N.eqb_eq, IH. split.
      * intros [-> [post ->]]. exists post. reflexivity.
      * intros [post [= -> ->]]. split; [reflexivity | exists post; reflexivity].
Qed.

Lemma contains_startswith (sub s : pstr) :
  Str.startswith sub s = true -> Str.contains sub s = true.
Proof. intros H. destruct s; cbn [Str.contains]; rewrite H; reflexivity. Qed.

Lemma contains_spec (sub s : pstr) :
  Str.contains sub s = true <-> exists pre post, s = pre ++ sub ++ post.
Proof.
  split.
  - induction s as [|x s IH]; simpl.
    + rewrite orb_false_r. intros [post H]%startswith_spec.
      exists [], post. exact H.
    + intros [[post H]%startswith_spec | (pre & post & ->)%IH]%orb_true_iff.
      * exists [], post. exact H.
      * exists (x :: pre), post. reflexivity.
  - intros (pre & post & ->). induction pre as [|x pre IH].
    + apply contains_startswith, startswith_spec. exists post. reflexivity.
    + cbn [app Str.contains]. rewrite IH. apply orb_true_r.
Qed.

(** X19.  The placeholder line is printed exactly when [link] is a
    string in which the text ["User to research"] occurs, anywhere and in
    this very spelling; the suspicious-link line exactly when [link] is a
    string of more than 200 characters in which ["http"] does not occur.
    A [link] that is absent or no string gets neither. *)
Theorem link_checks_read_the_text (fix_ : bool) (i : nat) (d : dict)
        (row_ok : bool) :
  (In (Stdout (PlaceholderInLink i)) (fst (check_link fix_ i d row_ok))
   <-> exists pre post,
         d !! py "link" = Some (VStr (pre ++ py "User to research" ++ post)))
  /\ (In (Stdout (SuspiciousLink i)) (fst (check_link fix_ i d row_ok))
      <-> exists s, d !! py "link" = Some (VStr s) /\ (200 < length s)%nat
                    /\ ~ exists pre post, s = pre ++ py "http" ++ post).
Proof.
  rewrite check_link_output. split.
  - transitivity (link_placeholder d = true).
    + destruct (link_placeholder d), (link_suspicious d), fix_; simpl;
        intuition discriminate.
    + unfold link_placeholder. destruct (d !! py "link") as [[]|].
      all: try (split; [discriminate | intros (pre & post & H); discriminate]).
      rewrite contains_spec. split.
      * intros (pre & post & ->). eauto.
      * intros (pre & post & [= ->]). eauto.
  - transitivity (link_suspicious d = true).
    + destruct (link_placeholder d), (link_suspicious d), fix_; simpl;
        intuition discriminate.
    + unfold link_suspicious. destruct (d !! py "link") as [[]|].
      all: try (split; [discriminate | intros (s' & H & _); discriminate]).
      rewrite andb_true_iff, negb_true_iff, Nat.ltb_lt.
      rewrite <- not_true_iff_false, contains_spec. split.
      * intros [Hh Hl]. exists s. auto.
      * intros (s' & [= <-] & Hl & Hh). auto.
Qed.

(** ** The test harness *)

(** X20.  [tests/run_validation_tests.py] passes: the validator exits
    with 0 on its good file and with 1 on its bad file, so that its
    [main] returns 0.  The bad file fails for its latitude alone; the
    good file validates as soon as its two dates, if they parse, are in
    order. *)
Theorem test_harness_passes :
  dates_ordered Sample.good_record = true ->
  run_validation_tests.run (Json (VList Sample.good_data)) Sample.good_json = 0
  /\ run_validation_tests.run (Json (VList Sample.bad_data)) Sample.bad_json = 1
  /\ run_validation_tests.main = 0.
Proof.
  intros Hd.
  assert (Hgood : run_validation_tests.run (Json (VList Sample.good_data))
                    Sample.good_json = 0).
  { unfold run_validation_tests.run. rewrite script_status, main_result.
    assert (Hv : Forall (fun d => valid_record d = true) [Sample.good_record]).
    { repeat constructor. unfold valid_record. rewrite Hd. reflexivity. }
    change Sample.good_data with (VDict <$> [Sample.good_record]).
    rewrite (loop_valid _ 1 [] true Hv). reflexivity. }
  assert (Hbad : run_validation_tests.run (Json (VList Sample.bad_data))
                   Sample.bad_json = 1).
  { unfold run_validation_tests.run.
    apply (failing_row_status false false (VDict Sample.bad_record));
      [left; reflexivity|].
    intros i. apply main_row_fails, row_passes_coordinates. reflexivity. }
  split; [exact Hgood|]. split; [exact Hbad|].
  unfold run_validation_tests.main. rewrite Hgood, Hbad. reflexivity.
Qed.

(** ** Coordinates that are no finite numbers *)

Lemma nonfinite_out_of_range (x : spec_float) :
  nonfinite x = true ->
  Float.between (-90) 90 x = false /\ Float.between (-180) 180 x = false.
Proof.
  destruct x as [| [] | |]; try discriminate; intros _; split;
    vm_compute; reflexivity.
Qed.

(** X21.  A coordinate that is [NaN] or an infinity is a number for
    [float], and the range test, written as [not (lo <= x <= hi)],
    rejects it: the check prints the out-of-range line of that
    coordinate, not the not-numeric line, and fails the row. *)
Theorem nonfinite_coordinate_out_of_range (fix_ : bool) (i : nat) (d : dict)
        (row_ok : bool) (lat lon : spec_float) :
  float (dict_get d (py "lat") (VInt 0)) = Ok lat ->
  float (dict_get d (py "lon") (VInt 0)) = Ok lon ->
  nonfinite lat = true \/ nonfinite lon = true ->
  (nonfinite lat = true ->
   In (Stdout (LatOutOfRange i lat)) (fst (check_latlon i d row_ok)))
  /\ (nonfinite lon = true ->
      In (Stdout (LonOutOfRange i lon)) (fst (check_latlon i d row_ok)))
  /\ ~ In (Stdout (NotNumeric i (d !! py "lat") (d !! py "lon")))
          (fst (check_latlon i d row_ok))
  /\ snd (check_latlon i d row_ok) = Ok false
  /\ (forall item, snd (main_row fix_ i (VDict d)) <> Ok (item, true)).
Proof.
  intros Hlat Hlon Hn.
  assert (Hp : coordinates_pass d = false).
  { unfold coordinates_pass. rewrite Hlat, Hlon. destruct Hn as [H|H].
    - rewrite (proj1 (nonfinite_out_of_range lat H)). reflexivity.
    - rewrite (proj2 (nonfinite_out_of_range lon H)). apply andb_false_r. }
  split; [|split; [|split; [|split]]].
  - intros H. unfold check_latlon. rewrite Hlat, Hlon.
    rewrite (proj1 (nonfinite_out_of_range lat H)).
    destruct (Float.between (-180) 180 lon); left; reflexivity.
  - intros H. unfold check_latlon. rewrite Hlat, Hlon.
    rewrite (proj2 (nonfinite_out_of_range lon H)).
    destruct (Float.between (-90) 90 lat); simpl; auto.
  - unfold check_latlon. rewrite Hlat, Hlon.
    destruct (Float.between (-90) 90 lat), (Float.between (-180) 180 lon);
      simpl; intuition discriminate.
  - rewrite check_latlon_result, Hp, andb_false_r. reflexivity.
  - apply main_row_fails, row_passes_coordinates, Hp.
Qed.

(** ** The output of a row *)

(** X22.  What a row prints for a record is what its four checks
    print, in the order completeness, coordinates, dates, link, each as
    if no check before it had failed; the link checks are left out only
    when the comparison of the dates raises.  In fix mode the link
    checks see the record after the swap, which has the same link. *)
Theorem row_output_in_check_order (fix_ : bool) (i : nat) (d : dict) :
  fst (main_row fix_ i (VDict d))
  = fst (check_missing i (VDict d))
    ++ fst (check_latlon i d true)
    ++ fst (check_dates fix_ i d true)
    ++ (if dates_comparable d then fst (check_link fix_ i d true) else []).
Proof.
  rewrite main_row_output.
  rewrite (check_latlon_output i d (complete d)).
  rewrite (check_dates_output fix_ i d (complete d && coordinates_pass d)).
  destruct (dates_comparable d); [|reflexivity].
  rewrite !check_link_output.
  destruct fix_; [|reflexivity].
  rewrite link_placeholder_swap, link_suspicious_swap. reflexivity.
Qed.

(** ** A file that fix mode accepted validates *)

Lemma items_pass_dicts (fix_ : bool) (ds : list dict) :
  forallb (item_passes fix_) (VDict <$> ds) = true ->
  Forall (fun d => row_passes fix_ d = true) ds.
Proof.
  induction ds as [|d ds IH]; [constructor|]. simpl.
  intros [Hd Hds]%andb_true_iff. constructor; [exact Hd | apply IH, Hds].
Qed.

Lemma clear_link_present (d : dict) (k : pstr) :
  absent d k = false -> absent (clear_link d) k = false.
Proof.
  unfold absent, clear_link.
  destruct (link_placeholder d || link_suspicious d); [|tauto].
  destruct (decide (py "link" = k)) as [<-|Hne].
  - rewrite lookup_insert_eq. reflexivity.
  - rewrite lookup_insert_ne by exact Hne. tauto.
Qed.

Lemma swap_dates_present (d : dict) (k : pstr) :
  absent d k = false -> absent (swap_dates d) k = false.
Proof.
  unfold absent, swap_dates. destruct (dates_inverted d); [|tauto].
  destruct (decide (py "departure" = k)) as [<-|Hd].
  - rewrite lookup_insert_eq. reflexivity.
  - rewrite lookup_insert_ne by exact Hd.
    destruct (decide (py "arrival" = k)) as [<-|Ha].
    + rewrite lookup_insert_eq. reflexivity.
    + rewrite lookup_insert_ne by exact Ha. tauto.
Qed.

Lemma repaired_complete (d : dict) :
  complete d = true -> complete (clear_link (swap_dates d)) = true.
Proof.
  unfold complete. rewrite !forallb_forall. intros H f Hf.
  specialize (H f Hf). apply negb_true_iff in H. apply negb_true_iff.
  apply clear_link_present, swap_dates_present, H.
Qed.

Lemma repaired_coordinates (d : dict) :
  coordinates_pass (clear_link (swap_dates d)) = coordinates_pass d.
Proof.
  unfold coordinates_pass, dict_get.
  rewrite !clear_link_other by key_neq. rewrite !swap_dates_other by key_neq.
  reflexivity.
Qed.

Lemma repaired_valid (d : dict) :
  dates_comparable d = true -> complete d = true -> coordinates_pass d = true ->
  valid_record (clear_link (swap_dates d)) = true.
Proof.
  intros Hc Hco Hp. rewrite valid_record_alt. unfold row_passes.
  rewrite (repaired_complete d Hco), repaired_coordinates, Hp.
  pose proof (swap_dates_ordered d Hc) as Ho.
  rewrite <- (dates_ordered_clear_link (swap_dates d)) in Ho.
  rewrite dates_ordered_alt in Ho. apply andb_true_iff in Ho as [-> ->].
  pose proof (clear_link_clean (swap_dates d)) as Hl.
  rewrite link_clean_alt in Hl. rewrite Hl. reflexivity.
Qed.

(** X23.  On clean text a fix run that returns 0 leaves data that
    validates: when every string of the dataset is clean already and
    [main] returns 0 in fix mode, the records it returns are valid, and
    validation of them, without fix, returns 0. *)
Theorem fixed_file_validates (ds : list dict) (path : Path) (inplace : bool) :
  Forall (fun d => clean_record d = d) ds ->
  snd (main (Json (VList (VDict <$> ds))) path true inplace) = Ok 0 ->
  snd (loop true 1 (VDict <$> ds) [] true)
  = Ok (VDict <$> (fix_record <$> ds), true)
  /\ Forall (fun d => valid_record d = true) (fix_record <$> ds)
  /\ (forall path' inplace',
        snd (main (Json (VList (VDict <$> (fix_record <$> ds)))) path' false inplace')
        = Ok 0).
Proof.
  intros Hclean Hrun.
  destruct (first_exn (VDict <$> ds)) as [e|] eqn:E.
  { rewrite (main_raises true inplace _ path e E) in Hrun. discriminate. }
  destruct (main_returns true inplace _ path E) as (cleaned & _ & _ & Hm).
  rewrite Hm in Hrun.
  destruct (snd (write_output path true inplace cleaned)); [|discriminate].
  apply first_exn_records in E.
  destruct (forallb (item_passes true) (VDict <$> ds)) eqn:Hp; [|discriminate].
  pose proof (items_pass_dicts true ds Hp) as Hpass.
  assert (Hvalid : Forall (fun d => valid_record d = true) (fix_record <$> ds)).
  { apply Forall_fmap. apply Forall_forall. intros d Hin.
    rewrite Forall_forall in Hclean, E, Hpass.
    specialize (Hclean d Hin). specialize (E d Hin). specialize (Hpass d Hin).
    unfold compose. rewrite (fix_record_clean d Hclean).
    unfold row_passes in Hpass. simpl in Hpass. rewrite andb_true_r in Hpass.
    apply andb_true_iff in Hpass as [Hco Hcp]. apply repaired_valid; assumption. }
  split; [|split; [exact Hvalid|]].
  - rewrite (loop_result_dicts true ds E). simpl. f_equal. f_equal.
    apply forallb_forall. intros d Hin. rewrite Forall_forall in Hpass.
    apply Hpass, list_elem_of_In, Hin.
  - intros path' inplace'. rewrite main_result_nonfix.
    rewrite (loop_valid _ 1 [] true Hvalid). reflexivity.
Qed.

(** ** C9: the write of the output *)

Lemma strings_ok_dict (ok : pstr -> bool) (d : dict) (k : pstr) (v : value) :
  d !! k = Some v -> strings_ok ok v = false -> strings_ok ok (VDict d) = false.
Proof.
  intros Hk Hv. cbn [strings_ok].
  cut (forall m : dict, m !! k = Some v ->
         map_fold (fun k v' acc => ok k && strings_ok ok v' && acc) true m = false).
  { intros H. apply H, Hk. }
  intros m. apply (map_fold_weak_ind
    (fun (r : bool) (m : dict) => m !! k = Some v -> r = false)).
  - rewrite lookup_empty. discriminate.
  - intros i x m' r Hi IH Hl. destruct (decide (i = k)) as [->|Hne].
    + rewrite lookup_insert_eq in Hl. injection Hl as ->.
      rewrite Hv, andb_false_r. reflexivity.
    + rewrite lookup_insert_ne in Hl by exact Hne.
      rewrite (IH Hl). apply andb_false_r.
Qed.

(** A lone surrogate in a string of a record cannot be encoded. *)
Lemma surrogate_not_encoded (ds : list dict) (d : dict) (k : pstr) (s : pstr)
      (c : N) :
  In d ds -> d !! k = Some (VStr s) -> In c s -> surrogate c = true ->
  encodes (VDict <$> ds) = false.
Proof.
  intros Hd Hk Hc Hs. unfold encodes.
  destruct (forallb _ (VDict <$> ds)) eqn:E; [|reflexivity]. exfalso.
  rewrite forallb_forall in E.
  assert (Hin : In (VDict d) (VDict <$> ds)).
  { apply list_elem_of_In, list_elem_of_fmap. exists d.
    split; [reflexivity | apply list_elem_of_In, Hd]. }
  specialize (E _ Hin).
  rewrite (strings_ok_dict _ d k (VStr s) Hk) in E; [discriminate|].
  cbn [strings_ok]. destruct (forallb _ s) eqn:F; [|reflexivity]. exfalso.
  rewrite forallb_forall in F. specialize (F c Hc).
  rewrite (encodable_surrogate c Hs), orb_false_r in F.
  apply N.ltb_lt in F. unfold surrogate in Hs.
  apply andb_true_iff in Hs as [Hs _]. apply N.leb_le in Hs. lia.
Qed.

(** C9 (amended).  In fix mode, with a non-empty [cleaned] list, the
    output path is the path itself when [inplace] is set, and otherwise
    the path with the same parent whose name is [stem + ".fixed" + suffix],
    where [stem + suffix] is the old name and the suffix is the
    extension, if there is one.  When that path opens and the text can be
    encoded, the list is written there once, as
    [json.dumps(cleaned, ensure_ascii=False, indent=2)]; when it opens and
    the text cannot be encoded, which is the case of a record with a lone
    surrogate in a string, the file is left empty and
    [UnicodeEncodeError] ends the run; when it does not open, [OSError]
    ends the run.  With an empty list nothing is written, and [main] on
    an empty dataset prints only the final line.  A run in which a row
    raises touches no file.  For a non-empty dataset of records whose
    dates compare, with a path that opens and a text that can be encoded,
    the one write of the run carries the records as the rows repaired
    them. *)
Theorem fix_output_written (p : Path) (inplace : bool) :
  let out_path :=
    if inplace then p
    else {| parent := parent p;
            name := pathlib.stem p ++ py ".fixed" ++ pathlib.suffix p |} in
  (forall item cleaned,
     opens_for_writing out_path = true ->
     encodes (item :: cleaned) = true ->
     write_output p true inplace (item :: cleaned)
     = ([WriteJson out_path (item :: cleaned) false 2;
         Stdout (WroteCleaned out_path)], Ok tt))
  /\ (forall item cleaned,
        opens_for_writing out_path = true ->
        encodes (item :: cleaned) = false ->
        write_output p true inplace (item :: cleaned)
        = ([Truncated out_path], Raise UnicodeEncodeError))
  /\ (forall item cleaned,
        opens_for_writing out_path = false ->
        write_output p true inplace (item :: cleaned) = ([], Raise OSError))
  /\ (forall (ds : list dict) d k s c,
        In d ds -> d !! k = Some (VStr s) -> In c s -> surrogate c = true ->
        encodes (VDict <$> ds) = false)
  /\ pathlib.stem p ++ pathlib.suffix p = name p
  /\ (pathlib.suffix p = []
      \/ exists ext, pathlib.suffix p = pathlib.dot :: ext
                     /\ ext <> [] /\ ~ In pathlib.dot ext)
  /\ write_output p true inplace [] = ([], Ok tt)
  /\ main (Json (VList [])) p true inplace = ([Stdout ValidationPassed], Ok 0)
  /\ (forall data e,
        first_exn data = Some e ->
        writes (fst (script (Json (VList data)) p true inplace)) = [])
  /\ (forall ds : list dict,
        ds <> [] ->
        Forall (fun d => dates_comparable d = true) ds ->
        opens_for_writing out_path = true ->
        encodes (VDict <$> (fix_record <$> ds)) = true ->
        writes (fst (main (Json (VList (VDict <$> ds))) p true inplace))
        = [WriteJson out_path (VDict <$> (fix_record <$> ds)) false 2]
        /\ writes (fst (script (Json (VList (VDict <$> ds))) p true inplace))
           = [WriteJson out_path (VDict <$> (fix_record <$> ds)) false 2]
        /\ In (Stdout (WroteCleaned out_path))
              (fst (main (Json (VList (VDict <$> ds))) p true inplace))).
Proof.
  intros out_path.
  assert (Hout : out_path
                 = if inplace then p
                   else pathlib.with_name p
                          (pathlib.stem p ++ py ".fixed" ++ pathlib.suffix p)).
  { unfold out_path, pathlib.with_name. destruct inplace; reflexivity. }
  split; [|split; [|split; [|split; [|split; [|split; [|split; [|split; [|split]]]]]]]].
  - intros item cleaned Ho He. unfold write_output. rewrite <- Hout, Ho, He.
    reflexivity.
  - intros item cleaned Ho He. unfold write_output. rewrite <- Hout, Ho, He.
    reflexivity.
  - intros item cleaned Ho. unfold write_output. rewrite <- Hout, Ho.
    reflexivity.
  - apply surrogate_not_encoded.
  - apply stem_suffix.
  - apply suffix_shape.
  - reflexivity.
  - reflexivity.
  - intros data e He.
    rewrite script_writes, main_writes, (loop_raises true data e He). reflexivity.
  - intros ds Hne Hcmp Ho He.
    assert (Hw : write_output p true inplace (VDict <$> (fix_record <$> ds))
                 = ([WriteJson out_path (VDict <$> (fix_record <$> ds)) false 2;
                     Stdout (WroteCleaned out_path)], Ok tt)).
    { destruct ds as [|d ds']; [congruence|]. cbn [fmap list_fmap] in *.
      unfold write_output. rewrite <- Hout, Ho, He. reflexivity. }
    assert (H : writes (fst (main (Json (VList (VDict <$> ds))) p true inplace))
                = [WriteJson out_path (VDict <$> (fix_record <$> ds)) false 2]).
    { rewrite main_writes, (loop_result_dicts true ds Hcmp).
      change ([] ++ (VDict <$> (row_record true <$> ds)))
        with (VDict <$> (fix_record <$> ds)).
      cbv beta iota. rewrite Hw. reflexivity. }
    split; [exact H|]. split; [rewrite script_writes; exact H|].
    rewrite main_list_shape.
    pose proof (loop_result_dicts true ds Hcmp 1 [] true) as Hl.
    destruct (loop true 1 (VDict <$> ds) [] true) as [o r]. simpl in Hl. subst r.
    change (row_record true) with fix_record.
    rewrite Hw. cbn [fst]. apply in_or_app; right. right; left; reflexivity.
Qed.

End Further.

(** * The test data *)

#[local] Existing Instance Sample.library.

(** The good file of the test harness is valid, and validates. *)
Lemma valid_dataset_passes_witness :
  Forall (fun d => valid_record d = true) [Sample.good_record]
  /\ script (Json (VList Sample.good_data)) Sample.good_json false false
     = ([Stdout ValidationPassed], 0).
Proof.
  assert (H : Forall (fun d => valid_record d = true) [Sample.good_record]).
  { repeat constructor. }
  split; [exact H|].
  exact (proj2 (proj2 (valid_dataset_passes [Sample.good_record]
                         Sample.good_json false H))).
Defined.

(** The dates of the bad record are inverted; ["soon"] is no date. *)
Lemma date_order_checked_witness :
  check_dates false 1 Sample.bad_record true
  = ([Stdout (ArrivalAfterDeparture 1 (Sample.str "2026-07-05")
                (Sample.str "2026-07-01"))],
     Ok (Sample.bad_record, false))
  /\ (fix_record Sample.bad_record !! py "arrival" = Some (Sample.str "2026-07-01")
      /\ fix_record Sample.bad_record !! py "departure"
         = Some (Sample.str "2026-07-05"))
  /\ check_dates true 1 Sample.undated true = ([], Ok (Sample.undated, true)).
Proof.
  destruct (date_order_checked 1 Sample.bad_record true) as [H _].
  destruct (H 20260705 20260701 eq_refl eq_refl eq_refl)
    as (Hnonfix & _ & _ & _ & _ & _ & _ & _ & _ & _ & _ & _ & _ & Harr & Hdep).
  split; [exact Hnonfix|]. split; [split; [exact Harr | exact Hdep]|].
  destruct (date_order_checked 1 Sample.undated true) as [_ H'].
  exact (H' true (or_introl eq_refl)).
Defined.

(** The record without a latitude: the diagnostic names ["lat"]. *)
Lemma missing_fields_reported_witness :
  complete Sample.lat_missing = false
  /\ check_missing 3 (VDict Sample.lat_missing)
     = ([Stdout (MissingFields 3 [py "lat"])], Ok false)
  /\ snd (script (Json (VList [VDict Sample.good_record; VDict Sample.lat_missing]))
            Sample.bad_json false false) = 1.
Proof.
  destruct (missing_fields_reported false 3 Sample.lat_missing eq_refl)
    as (_ & Hdiag & _ & _ & Hrun & _).
  split; [reflexivity|]. split; [exact Hdiag|].
  apply (Hrun [VDict Sample.good_record; VDict Sample.lat_missing]).
  right; left; reflexivity.
Defined.

(** The latitude 95 of the bad record. *)
Lemma coordinates_range_checked_witness :
  float (dict_get Sample.bad_record (py "lat") (VInt 0)) = Ok (Float.lit 95)
  /\ check_latlon 1 Sample.bad_record true
     = ([Stdout (LatOutOfRange 1 (Float.lit 95))], Ok false)
  /\ snd (script (Json (VList Sample.bad_data)) Sample.bad_json false false) = 1.
Proof.
  destruct (coordinates_range_checked false 1 Sample.bad_record true
              (Float.lit 95) (Float.lit 12) eq_refl eq_refl)
    as (Hblock & _ & _ & Hfail).
  split; [reflexivity|]. split; [exact Hblock|].
  destruct (Hfail eq_refl) as [_ Hrun].
  apply (Hrun Sample.bad_data). left; reflexivity.
Defined.

(** The link of the bad record is the placeholder text. *)
Lemma flagged_link_checked_witness :
  Sample.bad_record !! py "link" = Some (Sample.str "User to research")
  /\ snd (check_link false 1 Sample.bad_record true) = Ok (Sample.bad_record, false)
  /\ fix_record Sample.bad_record !! py "link" = Some (VStr []).
Proof.
  destruct (flagged_link_checked 1 Sample.bad_record true
              (py "User to research") eq_refl (or_introl eq_refl))
    as (Hnonfix & _ & _ & _ & Hrow).
  split; [reflexivity|]. split; [exact Hnonfix|].
  destruct (Hrow eq_refl) as (_ & _ & Hlink & _). exact Hlink.
Defined.

(** A file that holds the JSON number 5. *)
Lemma input_errors_abort_witness :
  script (Json (VInt 5)) Sample.good_json true false = ([Stdout ErrNotList], 1).
Proof.
  destruct (input_errors_abort Sample.good_json true false)
    as (_ & _ & _ & _ & H).
  apply (H (VInt 5)). intros data. discriminate.
Defined.



(** With no latitude and a longitude of 200 the coordinate check prints
    an out-of-range diagnostic and fails the row. *)
Lemma absent_lat_bad_lon :
  Sample.lat_missing !! py "lat" = None
  /\ check_latlon 1 Sample.lat_missing true
     = ([Stdout (LonOutOfRange 1 (Float.lit 200))], Ok false).
Proof. split; vm_compute; reflexivity. Qed.

(** The record without coordinates. *)
Lemma absent_coordinate_defaults_witness :
  Sample.no_coordinates !! py "lat" = None
  /\ check_latlon 1 Sample.no_coordinates true = ([], Ok true)
  /\ check_missing 1 (VDict Sample.no_coordinates)
     = ([Stdout (MissingFields 1 [py "lat"; py "lon"])], Ok false).
Proof.
  destruct (absent_coordinate_defaults 1 Sample.no_coordinates true
              (or_introl eq_refl))
    as (_ & _ & _ & _ & Hblock & Hmissing & _).
  split; [reflexivity|].
  split; [exact (Hblock (or_introl eq_refl) (or_introl eq_refl))|].
  exact Hmissing.
Defined.

(** The record with a lone surrogate in its name is valid, so that its
    row passes and the list to write is not empty; the fix run opens
    [good.fixed.json], fails to encode the text, and ends with the
    traceback of [UnicodeEncodeError] and status 1: the file is left
    empty and the dataset is not written. *)
Lemma fix_output_not_written :
  valid_record Sample.lone_surrogate = true
  /\ snd (loop true 1 [VDict Sample.lone_surrogate] [] true)
     = Ok ([VDict Sample.lone_surrogate], true)
  /\ script (Json (VList [VDict Sample.lone_surrogate])) Sample.good_json true false
     = ([Truncated {| parent := [py "tests"; py "tmp"];
                      name := py "good.fixed.json" |};
         Traceback UnicodeEncodeError], 1).
Proof. repeat split; vm_compute; reflexivity. Qed.

(** Fix mode on the bad file writes [bad.fixed.json]. *)
Lemma fix_output_written_witness :
  Forall (fun d => dates_comparable d = true) [Sample.bad_record]
  /\ writes (fst (script (Json (VList Sample.bad_data)) Sample.bad_json true false))
     = [WriteJson {| parent := [py "tests"; py "tmp"]; name := py "bad.fixed.json" |}
          [VDict (fix_record Sample.bad_record)] false 2].
Proof.
  assert (H : Forall (fun d => dates_comparable d = true) [Sample.bad_record]).
  { repeat constructor. }
  assert (Ho : opens_for_writing
                 {| parent := parent Sample.bad_json;
                    name := pathlib.stem Sample.bad_json ++ py ".fixed"
                              ++ pathlib.suffix Sample.bad_json |} = true).
  { reflexivity. }
  assert (He : encodes (VDict <$> (fix_record <$> [Sample.bad_record])) = true).
  { vm_compute. reflexivity. }
  destruct (fix_output_written Sample.bad_json false)
    as (_ & _ & _ & _ & _ & _ & _ & _ & _ & Hrun).
  split; [exact H|].
  refine (proj1 (proj2 (Hrun [Sample.bad_record] _ H Ho He))). discriminate.
Defined.

(** A non-fix run over the bad file leaves its record alone. *)
Lemma nonfix_is_pure_witness :
  Forall (fun item => row_completes item = true) Sample.bad_data
  /\ exists ok, snd (loop false 1 Sample.bad_data [] true) = Ok (Sample.bad_data, ok).
Proof.
  assert (H : Forall (fun item => row_completes item = true) Sample.bad_data).
  { repeat constructor. }
  split; [exact H|].
  destruct nonfix_is_pure as (_ & _ & _ & Hloop). exact (Hloop Sample.bad_data H).
Defined.

(** ** Beyond the claims *)

(** The dates of the bad record compare: fix mode swaps them and empties
    its link. *)
Lemma fix_repairs_dates_and_link_witness :
  dates_comparable Sample.bad_record = true
  /\ dates_ordered (clear_link (swap_dates Sample.bad_record)) = true
  /\ link_clean (clear_link (swap_dates Sample.bad_record)) = true.
Proof.
  assert (H : dates_comparable Sample.bad_record = true) by reflexivity.
  destruct (fix_repairs_dates_and_link 1 Sample.bad_record true H)
    as (o1 & o2 & _ & _ & Hd & Hl).
  split; [exact H|]. split; [exact Hd | exact Hl].
Defined.

(** The empty string is no date of the sample library. *)
Lemma fix_keeps_keys_witness :
  fromisoformat [] = None
  /\ exists out ok,
       snd (loop true 1 (VDict <$> [Sample.bad_record]) [] true)
       = Ok (VDict <$> out, ok)
       /\ Forall2 (fun d d' : dict => dom d' = dom d) [Sample.bad_record] out.
Proof.
  assert (H : fromisoformat [] = None) by reflexivity.
  split; [exact H|].
  apply (fix_keeps_keys [Sample.bad_record] H). repeat constructor.
Defined.

(** The strings of the bad record are clean. *)
Lemma fix_idempotent_on_clean_text_witness :
  clean_record Sample.bad_record = Sample.bad_record
  /\ exists ok ok',
       snd (loop true 1 (VDict <$> [Sample.bad_record]) [] true)
       = Ok (VDict <$> (fix_record <$> [Sample.bad_record]), ok)
       /\ snd (loop true 1 (VDict <$> (fix_record <$> [Sample.bad_record])) [] true)
          = Ok (VDict <$> (fix_record <$> [Sample.bad_record]), ok').
Proof.
  assert (H : clean_record Sample.bad_record = Sample.bad_record).
  { vm_compute. reflexivity. }
  split; [exact H|].
  apply (fix_idempotent_on_clean_text [Sample.bad_record]).
  constructor; [split; [exact H | reflexivity] | constructor].
Defined.

(** A latitude of [null] is no number. *)
Lemma coordinates_not_numeric_witness :
  check_latlon 2 Sample.lat_null true
  = ([Stdout (NotNumeric 2 (Some VNone) (Some (VInt 12)))], Ok false).
Proof.
  refine (proj1 (coordinates_not_numeric false 2 Sample.lat_null true _)).
  left. intros x. discriminate.
Defined.

(** The dates of the good record are in order. *)
Lemma test_harness_passes_witness :
  dates_ordered Sample.good_record = true /\ run_validation_tests.main = 0.
Proof.
  assert (H : dates_ordered Sample.good_record = true) by reflexivity.
  split; [exact H|].
  exact (proj2 (proj2 (test_harness_passes H))).
Defined.

(** A latitude of [NaN] is out of range. *)
Lemma nonfinite_coordinate_out_of_range_witness :
  float (dict_get Sample.lat_nan (py "lat") (VInt 0)) = Ok S754_nan
  /\ In (Stdout (LatOutOfRange 1 S754_nan)) (fst (check_latlon 1 Sample.lat_nan true))
  /\ snd (check_latlon 1 Sample.lat_nan true) = Ok false.
Proof.
  assert (Hlat : float (dict_get Sample.lat_nan (py "lat") (VInt 0)) = Ok S754_nan)
    by reflexivity.
  assert (Hlon : float (dict_get Sample.lat_nan (py "lon") (VInt 0))
                 = Ok (Float.lit 12)) by reflexivity.
  destruct (nonfinite_coordinate_out_of_range false 1 Sample.lat_nan true
              S754_nan (Float.lit 12) Hlat Hlon (or_introl eq_refl))
    as (Hin & _ & _ & Hres & _).
  split; [exact Hlat|]. split; [exact (Hin eq_refl) | exact Hres].
Defined.

(** Inverted dates and a placeholder link, otherwise in order: the fix
    run returns 0, and what it returns validates. *)
Lemma fixed_file_validates_witness :
  Forall (fun d => clean_record d = d) [Sample.repairable]
  /\ snd (main (Json (VList (VDict <$> [Sample.repairable]))) Sample.bad_json true false)
     = Ok 0
  /\ snd (main (Json (VList (VDict <$> (fix_record <$> [Sample.repairable]))))
            Sample.bad_json false false) = Ok 0.
Proof.
  assert (Hc : Forall (fun d => clean_record d = d) [Sample.repairable]).
  { constructor; [vm_compute; reflexivity | constructor]. }
  assert (Hr : snd (main (Json (VList (VDict <$> [Sample.repairable])))
                      Sample.bad_json true false) = Ok 0).
  { vm_compute. reflexivity. }
  destruct (fixed_file_validates [Sample.repairable] Sample.bad_json false Hc Hr)
    as (_ & _ & Hv).
  split; [exact Hc|]. split; [exact Hr | apply Hv].
Defined.
